(** * CPM model converter: extraction and packaging

    A shallow embedding of [cpm_converter.py] (class [CPMModelConverter]):
    the heuristic scanner [read_cpmmodel] that looks for one JSON object and
    for PNG images inside an opaque byte buffer, the packager
    [create_cpmproject] that lays out the project archive, and the top-level
    [convert_cpmmodel_to_cpmproject]; then the binary field readers
    [_read_string] and [_read_texture_data], [batch_convert], and the scans
    of [analyze_cpmmodel].  The interactive menu [main] is left out.

    Conventions.
    - Python [bytes] are [list byte]; indices and counters are [nat]: every
      index the source computes is non-negative, and the only subtraction
      ([brace_count -= 1]) is guarded by [brace_count > 0].
    - [bytes.find] returns [None] where Python returns [-1].
    - A Python [dict] read with [.get(key, default)] is a record of optional
      fields; the empty dict is the record with every field absent.
    - A Python [str] is a [string] of bytes; file names are ASCII.
    - Exceptions are explicit: a computation returns [Ret v] or [Raise e].
    - The debug trace ([_debug_print]) only prints when the debug flag is set
      and is left out. *)

From Stdlib Require Import Strings.String Strings.Ascii Strings.Byte.
From Stdlib Require Import PrimFloat DecimalString DecimalNat.
From Stdlib Require Import Arith Lia Bool ZArith Sorted List.
Import ListNotations.


(** ** Python builtins on [bytes] *)

Definition bytes := list byte.

(** The bytes of an ASCII literal, [b'...']. *)
Definition b (s : string) : bytes := list_byte_of_string s.

(** [data[i:j]] for [0 <= i] and [0 <= j]; like Python, the slice is clamped
    to the buffer. *)
Definition slice (data : bytes) (i j : nat) : bytes :=
  firstn (j - i) (skipn i data).

(** [data.startswith(sub)]. *)
Fixpoint starts_with (sub data : bytes) : bool :=
  match sub, data with
  | [], _ => true
  | _ :: _, [] => false
  | x :: sub', y :: data' => Byte.eqb x y && starts_with sub' data'
  end.

(** Leftmost match of [sub] in [rest], where [rest] is the buffer from
    position [pos] on. *)
Fixpoint find_in (sub rest : bytes) (pos : nat) : option nat :=
  match rest with
  | [] => if starts_with sub [] then Some pos else None
  | _ :: rest' =>
      if starts_with sub rest then Some pos else find_in sub rest' (S pos)
  end.

(** [data.find(sub, start)] for [0 <= start]. *)
Definition find (data sub : bytes) (start : nat) : option nat :=
  if length data <? start then None else find_in sub (skipn start data) start.

(** [str(n)] for a non-negative integer. *)
Definition str_of_nat (n : nat) : string :=
  NilEmpty.string_of_uint (Nat.to_uint n).

(** ** JSON values, as [json.loads] builds them *)

#[warnings="-register-all"]
Inductive json : Type :=
| JNull
| JBool (v : bool)
| JInt (n : Z)
| JFloat (f : float)
| JStr (s : string)
| JList (items : list json)
| JDict (members : list (string * json)).

(** A Python [dict] with string keys, in insertion order. *)
Definition dict := list (string * json).

(** [d.get(key)]: [None] when the key is absent. *)
Fixpoint dict_get (d : dict) (key : string) : option json :=
  match d with
  | [] => None
  | (k, v) :: d' => if String.eqb k key then Some v else dict_get d' key
  end.

(** Python truth value of a JSON value ([bool(v)]). *)
Definition truthy (v : json) : bool :=
  match v with
  | JNull => false
  | JBool t => t
  | JInt n => negb (Z.eqb n 0)
  | JFloat f => negb (PrimFloat.eqb f 0%float)
  | JStr s => negb (String.eqb s EmptyString)
  | JList items => match items with [] => false | _ :: _ => true end
  | JDict members => match members with [] => false | _ :: _ => true end
  end.

(** Truth value of an optional value: [None] is false. *)
Definition truthy_opt (o : option json) : bool :=
  match o with
  | None => false
  | Some v => truthy v
  end.

(** What [data[i:j].decode('utf-8')] followed by [json.loads] does with a
    slice.  The source tells three outcomes apart: a value, one of the two
    errors its inner handler catches ([json.JSONDecodeError],
    [UnicodeDecodeError]), and any other exception.  Every slice handed to the
    parser starts with an opening brace, so a value is a JSON object. *)
Inductive loads_result : Type :=
| Parsed (d : dict)
| DecodeError
| OtherError.

(** ** The structured extraction result *)

Record texture : Type := mkTexture {
  tex_name : option string;
  tex_data : option bytes
}.

Record metadata : Type := mkMetadata {
  meta_filename : option string;
  meta_model_name : option string;
  meta_file_size : option nat
}.

Record model_data : Type := mkModelData {
  md_textures : option (list texture);
  md_model : option dict;
  md_animations : option dict;
  md_metadata : option metadata
}.

(** The empty dict [{}] that [read_cpmmodel] returns on failure. *)
Definition empty_model_data : model_data := mkModelData None None None None.

(** [bool(model_data)]: a dict is true when it has a key. *)
Definition model_data_truthy (m : model_data) : bool :=
  match md_textures m, md_model m, md_animations m, md_metadata m with
  | None, None, None, None => false
  | _, _, _, _ => true
  end.

(** ** Image recovery *)

Definition png_signature : bytes :=
  [x89; x50; x4e; x47; x0d; x0a; x1a; x0a].

Definition iend_marker : bytes := b "IEND".

(** [f'texture_{tex_count}.png'] *)
Definition texture_name (tex_count : nat) : string :=
  ("texture_" ++ str_of_nat tex_count ++ ".png")%string.

(** The [while True] loop over PNG signatures, with the loop state
    ([search_start], [tex_count]) as arguments; the result is the list of
    textures appended from this state on.  [fuel] bounds the number of
    iterations; [None] means the bound was reached. *)
Fixpoint png_loop (fuel : nat) (data : bytes) (search_start tex_count : nat)
  : option (list texture) :=
  match fuel with
  | O => None
  | S fuel' =>
      match find data png_signature search_start with
      | None => Some []
      | Some png_pos =>
          match find data iend_marker png_pos with
          | Some png_end =>
              let png_end := png_end + 8 in
              let png_data := slice data png_pos png_end in
              match png_loop fuel' data (png_pos + 1) (tex_count + 1) with
              | Some more =>
                  Some (mkTexture (Some (texture_name tex_count))
                                  (Some png_data) :: more)
              | None => None
              end
          | None => png_loop fuel' data (png_pos + 1) tex_count
          end
      end
  end.

(** The texture list built by [read_cpmmodel].  Each iteration moves
    [search_start] forward, so [length data + 1] iterations are enough
    (lemma [png_loop_enough_fuel]) and the default is never taken. *)
Definition scan_textures (data : bytes) : list texture :=
  match png_loop (S (length data)) data 0 0 with
  | Some textures => textures
  | None => []
  end.

(** ** JSON recovery *)

Definition open_brace : byte := x7b.
Definition close_brace : byte := x7d.

(** The inner [while json_end < len(data) and brace_count > 0] loop.  [rest]
    is [data[json_end:]], so the first test is [rest <> []]. Returns the
    final [(brace_count, json_end)]. *)
Fixpoint brace_scan (rest : bytes) (brace_count json_end : nat) : nat * nat :=
  match rest with
  | [] => (brace_count, json_end)
  | c :: rest' =>
      if 0 <? brace_count then
        let brace_count :=
          if Byte.eqb c open_brace then brace_count + 1
          else if Byte.eqb c close_brace then brace_count - 1
          else brace_count in
        brace_scan rest' brace_count (json_end + 1)
      else (brace_count, json_end)
  end.

(** What one iteration of the [for i] loop decides. *)
Inductive attempt : Type :=
| Hit (model_json : dict) (json_end : nat)   (* assignment, then [break] *)
| Skip                                       (* next [i] *)
| Crash.                                     (* uncaught by the inner handler *)

Section Extractor.

Variable json_loads : bytes -> loads_result.

(** Body of the [for i in range(len(data) - 1)] loop. *)
Definition json_attempt (data : bytes) (i : nat) : attempt :=
  match nth_error data i with
  | Some c =>
      if Byte.eqb c open_brace then
        let '(brace_count, json_end) :=
          brace_scan (skipn (i + 1) data) 1 (i + 1) in
        if brace_count =? 0 then
          match json_loads (slice data i json_end) with
          | Parsed model_json => Hit model_json json_end
          | DecodeError => Skip
          | OtherError => Crash
          end
        else Skip
      else Skip
  | None => Skip
  end.

(** The [for] loop over the positions [indices]: the model it leaves in
    [model_data['model']] ([{}] when nothing was assigned), or [None] when
    an exception escapes. *)
Fixpoint json_loop (data : bytes) (indices : list nat) : option dict :=
  match indices with
  | [] => Some []
  | i :: indices' =>
      match json_attempt data i with
      | Hit model_json _ => Some model_json
      | Skip => json_loop data indices'
      | Crash => None
      end
  end.

(** [range(len(data) - 1)]; empty when [len(data)] is 0 or 1. *)
Definition json_positions (data : bytes) : list nat :=
  seq 0 (length data - 1).

Definition scan_json (data : bytes) : option dict :=
  json_loop data (json_positions data).

End Extractor.

(** ** Path and string helpers

    ASCII models of the [str] and [os.path] (POSIX) functions the converter
    calls on file names. *)

(** [s.lower()] on ASCII letters. *)
Definition ascii_lower (c : ascii) : ascii :=
  let n := nat_of_ascii c in
  if (65 <=? n) && (n <=? 90) then ascii_of_nat (n + 32) else c.

Fixpoint lower (s : string) : string :=
  match s with
  | EmptyString => EmptyString
  | String c s' => String (ascii_lower c) (lower s')
  end.

(** [s.endswith(suffix)] *)
Definition endswith (s suffix : string) : bool :=
  let n := String.length suffix in
  let m := String.length s in
  (n <=? m) && String.eqb (substring (m - n) n s) suffix.

(** The part of [s] before its last dot, when it has one. *)
Fixpoint before_last_dot (s : string) : option string :=
  match s with
  | EmptyString => None
  | String c s' =>
      match before_last_dot s' with
      | Some head => Some (String c head)
      | None => if Ascii.eqb c "." then Some EmptyString else None
      end
  end.

(** [s.rsplit('.', 1)[0]] *)
Definition rsplit_dot_head (s : string) : string :=
  match before_last_dot s with
  | Some head => head
  | None => s
  end.

Fixpoint has_slash (s : string) : bool :=
  match s with
  | EmptyString => false
  | String c s' => Ascii.eqb c "/" || has_slash s'
  end.

(** [os.path.basename(p)]: what follows the last slash. *)
Fixpoint basename (p : string) : string :=
  match p with
  | EmptyString => EmptyString
  | String c p' =>
      if has_slash p' then basename p'
      else if Ascii.eqb c "/" then p' else p
  end.

Fixpoint all_dots (s : string) : bool :=
  match s with
  | EmptyString => true
  | String c s' => Ascii.eqb c "." && all_dots s'
  end.

(** [os.path.splitext(filename)[0]] for a name without a slash: the name is
    cut at its last dot unless only dots come before it. *)
Definition splitext_root (filename : string) : string :=
  match before_last_dot filename with
  | Some head => if all_dots head then filename else head
  | None => filename
  end.

(** ** The Extractor: [read_cpmmodel] *)

(** The exceptions told apart: the two the conversion raises itself, the
    I/O error of the host, and any other subclass of [Exception]. *)
Inductive exn : Type :=
| FileNotFoundError
| ValueError
| OSError
| OtherException.

(** What [zipf.writestr] is given: the text
    [json.dumps(doc, indent=2, ensure_ascii=False)] of a document, or raw
    bytes (the empty string of a placeholder is [RawBytes []]). *)
Inductive payload : Type :=
| JsonText (doc : json)
| RawBytes (content : bytes).

Definition entry : Type := string * payload.

(** What the host gives the converter: [os.path.exists], the content that
    [open(path, 'rb').read()] returns ([None] when opening or reading raises),
    and the exception, if any, that opening the ZIP archive at a path and
    writing the given entries to it runs into. *)
Record host : Type := mkHost {
  path_exists : string -> bool;
  file_content : string -> option bytes;
  zip_write_error : string -> list entry -> option exn
}.

(** The skeleton assigned when [model_data['model']] is still false after
    the scan. *)
Definition skeleton_model : dict :=
  [ ("version"%string, JInt 1);
    ("parts"%string, JList []);
    ("animations"%string, JDict []);
    ("poses"%string, JDict []);
    ("scaling"%string, JDict []) ].

(** [bool(d)] for a dict. *)
Definition dict_truthy (d : dict) : bool := truthy (JDict d).

Section ReadModel.

Variable json_loads : bytes -> loads_result.

(** The [try] body of [read_cpmmodel] on the bytes read; [None] when an
    exception reaches the outer handler. *)
Definition extract (data : bytes) (file_path : string) : option model_data :=
  match scan_json json_loads data with
  | None => None
  | Some model_json =>
      let textures := scan_textures data in
      let model :=
        if negb (dict_truthy model_json) then skeleton_model
        else model_json in
      let filename := basename file_path in
      let model_name := splitext_root filename in
      Some (mkModelData (Some textures) (Some model) (Some [])
              (Some (mkMetadata (Some filename) (Some model_name)
                       (Some (length data)))))
  end.

(** [read_cpmmodel]: every exception ends in [return {}]. *)
Definition read_cpmmodel (h : host) (file_path : string) : model_data :=
  match file_content h file_path with
  | None => empty_model_data
  | Some data =>
      match extract data file_path with
      | Some result => result
      | None => empty_model_data
      end
  end.

End ReadModel.

(** ** The Packager: [create_cpmproject] *)

Definition three_ones : json :=
  JList [JFloat 1.0%float; JFloat 1.0%float; JFloat 1.0%float].

(** The document substituted for a model without parts. *)
Definition default_model : dict :=
  [ ("version"%string, JInt 11);
    ("parts"%string, JList []);
    ("scaling"%string,
       JDict [ ("head"%string, three_ones);
               ("body"%string, three_ones);
               ("leftArm"%string, three_ones);
               ("rightArm"%string, three_ones);
               ("leftLeg"%string, three_ones);
               ("rightLeg"%string, three_ones) ]);
    ("animations"%string, JDict []);
    ("poses"%string, JDict []);
    ("root"%string, JList []) ].

Definition get_or {A : Type} (o : option A) (default : A) : A :=
  match o with
  | Some v => v
  | None => default
  end.

Definition project_info (m : model_data) : json :=
  let metadata := get_or (md_metadata m) (mkMetadata None None None) in
  JDict
    [ ("version"%string, JStr "0.6.0");
      ("name"%string,
         JStr (get_or (meta_model_name metadata) "Converted Model"%string));
      ("description"%string,
         JStr ("Converted from "
               ++ get_or (meta_filename metadata) ".cpmmodel"%string)%string);
      ("author"%string, JStr "CPM Converter");
      ("exportVersion"%string, JStr "1.0.0") ].

(** The document written as [model.json]. *)
Definition model_document (m : model_data) : dict :=
  let model_json := get_or (md_model m) [] in
  if negb (dict_truthy model_json)
     || negb (truthy_opt (dict_get model_json "parts"))
  then default_model
  else model_json.

(** The [for i, texture in enumerate(...)] loop: the entries written from
    index [i] on and the final value of [textures_added]. *)
Fixpoint write_textures (textures : list texture) (i textures_added : nat)
  : list entry * nat :=
  match textures with
  | [] => ([], textures_added)
  | texture :: rest =>
      let name := get_or (tex_name texture) (texture_name i) in
      let data := get_or (tex_data texture) [] in
      match data with
      | _ :: _ =>
          let tex_path :=
            if negb (String.prefix "textures/" name)
            then ("textures/" ++ name)%string
            else name in
          let '(entries, n) := write_textures rest (i + 1) (textures_added + 1) in
          ((tex_path, RawBytes data) :: entries, n)
      | [] => write_textures rest (i + 1) textures_added
      end
  end.

(** Number of textures the packager writes. *)
Definition textures_added (m : model_data) : nat :=
  snd (write_textures (get_or (md_textures m) []) 0 0).

(** Every [writestr] of the [with] block, in order. *)
Definition archive_entries (m : model_data) : list entry :=
  let '(texture_entries, textures_added) :=
    write_textures (get_or (md_textures m) []) 0 0 in
  [ ("project.json"%string, JsonText (project_info m));
    ("model.json"%string, JsonText (JDict (model_document m))) ]
  ++ texture_entries
  ++ (if textures_added =? 0
      then [ ("textures/.keep"%string, RawBytes []) ] else [])
  ++ [ ("animations/.keep"%string, RawBytes []) ].

(** ** Effects: console, archives on disk, exceptions *)

Inductive message : Type :=
| MsgConverting (input_path output_path : string)
| MsgReadFailed
| MsgSuccess
| MsgCreatedFile (output_path : string)
| MsgTexturesExtracted (count : nat)
| MsgConversionError (e : exn)
| MsgPackagingError (e : exn).

(** What a run leaves behind: the lines printed, oldest first, and the
    archives completely written, latest first. *)
Record world : Type := mkWorld {
  console : list message;
  archives : list (string * list entry)
}.

Definition initial_world : world := mkWorld [] [].

Inductive result (A : Type) : Type :=
| Ret (value : A)
| Raise (e : exn).

Arguments Ret {A} value.
Arguments Raise {A} e.

Definition M (A : Type) : Type := world -> result A * world.

Definition ret {A : Type} (v : A) : M A := fun w => (Ret v, w).

Definition raise {A : Type} (e : exn) : M A := fun w => (Raise e, w).

Definition bind {A B : Type} (m : M A) (k : A -> M B) : M B :=
  fun w =>
    match m w with
    | (Ret v, w') => k v w'
    | (Raise e, w') => (Raise e, w')
    end.

(** [try: m except Exception as e: handler(e)] *)
Definition try_except {A : Type} (m : M A) (handler : exn -> M A) : M A :=
  fun w =>
    match m w with
    | (Ret v, w') => (Ret v, w')
    | (Raise e, w') => handler e w'
    end.

Definition print (msg : message) : M unit :=
  fun w => (Ret tt, mkWorld (console w ++ [msg]) (archives w)).

Notation "x <- m ;; k" := (bind m (fun x => k))
  (at level 61, m at next level, right associativity).
Notation "m ;; k" := (bind m (fun _ => k))
  (at level 61, right associativity).

(** The [with zipfile.ZipFile(...)] block: either an exception, or the
    archive with all its entries.  A partially written file is not
    recorded. *)
Definition write_zip (h : host) (output_path : string) (entries : list entry)
  : M unit :=
  fun w =>
    match zip_write_error h output_path entries with
    | Some e => (Raise e, w)
    | None =>
        (Ret tt, mkWorld (console w) ((output_path, entries) :: archives w))
    end.

(** [create_cpmproject] has no [return] statement: its value is Python's
    [None], here the [None] of [option nat]. *)
Definition create_cpmproject (h : host) (m : model_data) (output_path : string)
  : M (option nat) :=
  try_except
    (write_zip h output_path (archive_entries m) ;;
     ret None)
    (fun e =>
       print (MsgPackagingError e) ;;
       raise e).

(** [if output_path is None:
       output_path = input_path.rsplit('.', 1)[0] + '.cpmproject'] *)
Definition resolve_output_path (input_path : string)
    (output_path : option string) : string :=
  match output_path with
  | None => (rsplit_dot_head input_path ++ ".cpmproject")%string
  | Some p => p
  end.

Section Convert.

Variable json_loads : bytes -> loads_result.

(** [convert_cpmmodel_to_cpmproject(input_path, output_path=None)] *)
Definition convert_cpmmodel_to_cpmproject
    (h : host) (input_path : string) (output_path : option string) : M bool :=
  if negb (path_exists h input_path) then raise FileNotFoundError
  else if negb (endswith (lower input_path) ".cpmmodel") then raise ValueError
  else
    let output_path := resolve_output_path input_path output_path in
    print (MsgConverting input_path output_path) ;;
    try_except
      (let model_data := read_cpmmodel json_loads h input_path in
       if negb (model_data_truthy model_data) then
         print MsgReadFailed ;;
         ret false
       else
         create_cpmproject h model_data output_path ;;
         print MsgSuccess ;;
         print (MsgCreatedFile output_path) ;;
         print (MsgTexturesExtracted
                  (length (get_or (md_textures model_data) []))) ;;
         ret true)
      (fun e =>
         print (MsgConversionError e) ;;
         ret false).

End Convert.

(** ** A reference parser

    A recursive-descent parser for a fragment of JSON: objects, arrays,
    strings of printable ASCII without escapes, integers, [true], [false],
    [null], and the four white-space bytes.  On a text of this fragment it
    returns the value [json.loads] returns; everything else is rejected.  It
    gives the statements below concrete instances of the parser they
    quantify over. *)

Module RefJson.

Definition is_ws (c : byte) : bool :=
  Byte.eqb c x20 || Byte.eqb c x09 || Byte.eqb c x0a || Byte.eqb c x0d.

Fixpoint skip_ws (s : bytes) : bytes :=
  match s with
  | c :: s' => if is_ws c then skip_ws s' else s
  | [] => []
  end.

Definition is_plain_char (c : byte) : bool :=
  let n := Byte.to_nat c in
  (32 <=? n) && (n <=? 126) && negb (Byte.eqb c x22) && negb (Byte.eqb c x5c).

(** The characters up to the closing quote; [s] starts after the opening
    quote. *)
Fixpoint take_string (s : bytes) : option (bytes * bytes) :=
  match s with
  | [] => None
  | c :: s' =>
      if Byte.eqb c x22 then Some ([], s')
      else if is_plain_char c then
        match take_string s' with
        | Some (chars, rest) => Some (c :: chars, rest)
        | None => None
        end
      else None
  end.

Definition is_digit (c : byte) : bool :=
  let n := Byte.to_nat c in (48 <=? n) && (n <=? 57).

Fixpoint take_digits (s : bytes) (acc : Z) : Z * bytes :=
  match s with
  | c :: s' =>
      if is_digit c
      then take_digits s' (10 * acc + Z.of_nat (Byte.to_nat c - 48))
      else (acc, s)
  | [] => (acc, [])
  end.

(** An integer literal: no leading zero, no fraction, no exponent. *)
Definition take_int (s : bytes) : option (Z * bytes) :=
  let '(negative, s) :=
    match s with
    | c :: s' => if Byte.eqb c x2d then (true, s') else (false, s)
    | [] => (false, s)
    end in
  match s with
  | c :: s' =>
      if is_digit c then
        let '(n, rest) :=
          if Byte.eqb c x30 then (0%Z, s') else take_digits s 0 in
        match rest with
        | d :: _ =>
            if is_digit d || Byte.eqb d x2e || Byte.eqb d x65
               || Byte.eqb d x45
            then None
            else Some (if negative then (- n)%Z else n, rest)
        | [] => Some (if negative then (- n)%Z else n, rest)
        end
      else None
  | [] => None
  end.

(** [d[key] = v]: a key already present keeps its place. *)
Fixpoint dict_set (d : dict) (key : string) (v : json) : dict :=
  match d with
  | [] => [(key, v)]
  | (k, v') :: d' =>
      if String.eqb k key then (k, v) :: d'
      else (k, v') :: dict_set d' key v
  end.

Fixpoint parse_value (fuel : nat) (s : bytes) {struct fuel}
  : option (json * bytes) :=
  match fuel with
  | O => None
  | S fuel' =>
      match s with
      | [] => None
      | c :: r =>
          if Byte.eqb c x22 then
            match take_string r with
            | Some (chars, rest) =>
                Some (JStr (string_of_list_byte chars), rest)
            | None => None
            end
          else if Byte.eqb c open_brace then
            match skip_ws r with
            | c' :: r' =>
                if Byte.eqb c' close_brace then Some (JDict [], r')
                else
                  match parse_members fuel' (c' :: r') [] with
                  | Some (members, rest) => Some (JDict members, rest)
                  | None => None
                  end
            | [] => None
            end
          else if Byte.eqb c x5b then
            match skip_ws r with
            | c' :: r' =>
                if Byte.eqb c' x5d then Some (JList [], r')
                else
                  match parse_items fuel' (c' :: r') with
                  | Some (items, rest) => Some (JList items, rest)
                  | None => None
                  end
            | [] => None
            end
          else if starts_with (b "true") s then
            Some (JBool true, skipn 4 s)
          else if starts_with (b "false") s then
            Some (JBool false, skipn 5 s)
          else if starts_with (b "null") s then
            Some (JNull, skipn 4 s)
          else
            match take_int s with
            | Some (n, rest) => Some (JInt n, rest)
            | None => None
            end
      end
  end

with parse_members (fuel : nat) (s : bytes) (acc : dict) {struct fuel}
  : option (dict * bytes) :=
  match fuel with
  | O => None
  | S fuel' =>
      match s with
      | c :: r =>
          if Byte.eqb c x22 then
            match take_string r with
            | Some (chars, rest) =>
                match skip_ws rest with
                | colon :: rest =>
                    if Byte.eqb colon x3a then
                      match parse_value fuel' (skip_ws rest) with
                      | Some (v, rest) =>
                          let acc :=
                            dict_set acc (string_of_list_byte chars) v in
                          match skip_ws rest with
                          | sep :: rest =>
                              if Byte.eqb sep x2c
                              then parse_members fuel' (skip_ws rest) acc
                              else if Byte.eqb sep close_brace
                              then Some (acc, rest)
                              else None
                          | [] => None
                          end
                      | None => None
                      end
                    else None
                | [] => None
                end
            | None => None
            end
          else None
      | [] => None
      end
  end

with parse_items (fuel : nat) (s : bytes) {struct fuel}
  : option (list json * bytes) :=
  match fuel with
  | O => None
  | S fuel' =>
      match parse_value fuel' s with
      | Some (v, rest) =>
          match skip_ws rest with
          | sep :: rest =>
              if Byte.eqb sep x2c then
                match parse_items fuel' (skip_ws rest) with
                | Some (items, rest) => Some (v :: items, rest)
                | None => None
                end
              else if Byte.eqb sep x5d then Some ([v], rest)
              else None
          | [] => None
          end
      | None => None
      end
  end.

(** The parser on a whole slice: one object and nothing but white space
    after it. *)
Definition loads (s : bytes) : loads_result :=
  match parse_value (S (length s)) s with
  | Some (JDict members, rest) =>
      match skip_ws rest with
      | [] => Parsed members
      | _ :: _ => DecodeError
      end
  | _ => DecodeError
  end.

End RefJson.

(** A host with one readable file. *)
Definition single_file_host (path : string) (content : bytes)
    (zip_fails : bool) : host :=
  mkHost (fun p => String.eqb p path)
         (fun p => if String.eqb p path then Some content else None)
         (fun _ _ => if zip_fails then Some OSError else None).

(** The bytes of a JSON text written with apostrophes for its double
    quotes. *)
Definition jb (s : string) : bytes :=
  map (fun c => if Byte.eqb c x27 then x22 else c) (list_byte_of_string s).

(** ** Vocabulary of the statements *)

(** [sub] occurs in [data] at position [p]. *)
Definition occurs_at (sub data : bytes) (p : nat) : bool :=
  starts_with sub (skipn p data).

(** A recovered image: the position of its signature and the position of
    the first [IEND] marker at or after it. *)
Definition image : Type := nat * nat.

(** The texture recorded for an image when the counter is [k]. *)
Definition texture_of (data : bytes) (k : nat) (img : image) : texture :=
  mkTexture (Some (texture_name k))
            (Some (slice data (fst img) (snd img + 8))).

(** Textures of a list of images, named from counter [k] on. *)
Fixpoint textures_of (data : bytes) (k : nat) (images : list image)
  : list texture :=
  match images with
  | [] => []
  | img :: images' => texture_of data k img :: textures_of data (k + 1) images'
  end.

Fixpoint count_byte (c : byte) (l : bytes) : nat :=
  match l with
  | [] => 0
  | x :: l' => (if Byte.eqb x c then 1 else 0) + count_byte c l'
  end.

(** Opening braces minus closing braces. *)
Definition brace_net (l : bytes) : Z :=
  (Z.of_nat (count_byte open_brace l) - Z.of_nat (count_byte close_brace l))%Z.

(** A byte range with balanced braces: it opens with a brace, and counting
    every brace byte the depth is positive inside the range and returns to
    zero exactly on its last byte. *)
Definition balanced_object (obj : bytes) : bool :=
  match obj with
  | [] => false
  | c :: body =>
      Byte.eqb c open_brace
      && (1 + brace_net body =? 0)%Z
      && forallb (fun k => (0 <? 1 + brace_net (firstn k body))%Z)
                 (seq 0 (length body))
  end.

(** [images] are the images the scan records from position [start] on: the
    signature occurrences at or after [start] that have an [IEND] marker at
    or after them, each once, by ascending position. *)
Definition recorded_from (data : bytes) (start : nat) (images : list image)
  : Prop :=
  StronglySorted lt (map fst images)
  /\ forall p e,
       In (p, e) images <->
       start <= p
       /\ occurs_at png_signature data p = true
       /\ find data iend_marker p = Some e.

(** The positions of the buffer where the PNG signature occurs, ascending. *)
Definition signature_positions (data : bytes) : list nat :=
  filter (occurs_at png_signature data) (seq 0 (length data)).

(** The texture has data: the packager's [if tex_data:]. *)
Definition has_data (t : texture) : bool :=
  match tex_data t with
  | Some (_ :: _) => true
  | _ => false
  end.

(** ** Sample inputs *)

(** One image: the signature, fifty bytes, the marker and a checksum. *)
Definition sample_image : bytes :=
  png_signature ++ repeat x00 50 ++ iend_marker ++ [x01; x02; x03; x04].

(** Two images back to back, no JSON. *)
Definition two_images : bytes := sample_image ++ sample_image.

(** A model with one part. *)
Definition sample_object : bytes :=
  jb "{'version':1,'parts':[{'id':'head'}]}".

Definition sample_model : dict :=
  [ ("version"%string, JInt 1);
    ("parts"%string, JList [JDict [("id"%string, JStr "head")]]) ].

(** The model between binary noise: an opening brace before it and a
    closing brace after it, so that the region starting at the first brace
    balances and is rejected by the parser. *)
Definition noisy_prefix : bytes := [x89; x7b; x00].
Definition noisy_suffix : bytes := [x7d; xff].



(** Hosts with the one file [m.cpmmodel]. *)
Definition empty_file_host : host := single_file_host "m.cpmmodel" [] false.

Definition unwritable_host : host := single_file_host "m.cpmmodel" [] true.

Definition one_image_host : host :=
  single_file_host "m.cpmmodel" sample_image false.


(** The archive written when nothing usable was extracted from the file
    at [file_path]. *)
Definition fallback_archive (file_path : string) : list entry :=
  [ ("project.json"%string,
     JsonText
       (JDict
          [ ("version"%string, JStr "0.6.0");
            ("name"%string, JStr (splitext_root (basename file_path)));
            ("description"%string,
               JStr ("Converted from " ++ basename file_path)%string);
            ("author"%string, JStr "CPM Converter");
            ("exportVersion"%string, JStr "1.0.0") ]));
    ("model.json"%string, JsonText (JDict default_model));
    ("textures/.keep"%string, RawBytes []);
    ("animations/.keep"%string, RawBytes []) ].


(** * The rest of the converter *)

(** ** The binary field readers

    [_read_string] and [_read_texture_data] read a field that starts with
    its length as four little-endian bytes.  [offset] is non-negative.
    [struct.unpack] raises [struct.error] on a slice that is not four bytes
    long; that exception is [OtherException] here. *)

(** [struct.unpack('<I', four)[0]] *)
Definition unpack_u32_le (four : bytes) : option Z :=
  match four with
  | [b0; b1; b2; b3] =>
      Some (Z.of_N (Byte.to_N b0)
            + 256 * Z.of_N (Byte.to_N b1)
            + 65536 * Z.of_N (Byte.to_N b2)
            + 16777216 * Z.of_N (Byte.to_N b3))%Z
  | _ => None
  end.

Definition _read_texture_data (data : bytes) (offset : nat)
  : result (bytes * nat) :=
  if length data <? offset + 4 then Ret ([], offset)
  else
    match unpack_u32_le (slice data offset (offset + 4)) with
    | None => Raise OtherException
    | Some tex_size =>
        let offset := offset + 4 in
        if (tex_size =? 0)%Z
           || (Z.of_nat (length data) <? Z.of_nat offset + tex_size)%Z
        then Ret ([], offset)
        else
          let tex_data := slice data offset (offset + Z.to_nat tex_size) in
          let offset := offset + Z.to_nat tex_size in
          Ret (tex_data, offset)
    end.

Section ReadString.

(** [bytes.decode('utf-8')]: [None] is [UnicodeDecodeError]. *)
Variable decode_utf8 : bytes -> option string.

(** [bytes.decode('utf-8', errors='ignore')] *)
Variable decode_utf8_ignore : bytes -> string.

Definition _read_string (data : bytes) (offset : nat)
  : result (string * nat) :=
  if length data <? offset + 4 then Ret (EmptyString, offset)
  else
    match unpack_u32_le (slice data offset (offset + 4)) with
    | None => Raise OtherException
    | Some str_len =>
        let offset := offset + 4 in
        if (Z.of_nat (length data) <? Z.of_nat offset + str_len)%Z
        then Ret (EmptyString, offset)
        else
          let raw := slice data offset (offset + Z.to_nat str_len) in
          let string :=
            match decode_utf8 raw with
            | Some s => s
            | None => decode_utf8_ignore raw
            end in
          let offset := offset + Z.to_nat str_len in
          Ret (string, offset)
    end.

End ReadString.

(** ** The scans of [analyze_cpmmodel]

    The analysis prints three lists it computes from the bytes of the file:
    [json_positions], [png_positions] and [strings].  The lists are modelled;
    the layout of the printed lines is not. *)

(** [json_positions]: every [i] of [range(len(data) - 1)] with an opening
    brace at [data[i]]. *)
Definition analyze_json_positions (data : bytes) : list nat :=
  filter (fun i =>
            match nth_error data i with
            | Some c => Byte.eqb c open_brace
            | None => false
            end)
         (seq 0 (length data - 1)).

(** The [while True] loop that fills [png_positions], from the state
    [search_start] on. *)
Fixpoint analyze_png_loop (fuel : nat) (data : bytes) (search_start : nat)
  : option (list nat) :=
  match fuel with
  | O => None
  | S fuel' =>
      match find data png_signature search_start with
      | None => Some []
      | Some pos =>
          match analyze_png_loop fuel' data (pos + 1) with
          | Some more => Some (pos :: more)
          | None => None
          end
      end
  end.

(** [png_positions]; [length data + 1] iterations are enough (lemma
    [analyze_png_loop_enough_fuel]). *)
Definition analyze_png_positions (data : bytes) : list nat :=
  match analyze_png_loop (S (length data)) data 0 with
  | Some positions => positions
  | None => []
  end.

Fixpoint bytes_eqb (x y : bytes) : bool :=
  match x, y with
  | [], [] => true
  | c :: x', d :: y' => Byte.eqb c d && bytes_eqb x' y'
  | _, _ => false
  end.

Section AnalyzeStrings.

Variable decode_utf8 : bytes -> option string.

(** [str.isprintable] *)
Variable isprintable : string -> bool.

(** [len] of a [str]: its number of characters. *)
Variable str_len_chars : string -> nat.

(** The [while i < len(data) - 4] loop that fills [strings], from the
    state [i] on.  [len(data) - 4] is negative for a short buffer and the
    loop does not run; so it is with the truncated subtraction. *)
Fixpoint analyze_strings_loop (fuel : nat) (data : bytes) (i : nat)
  : option (list (nat * string)) :=
  match fuel with
  | O => None
  | S fuel' =>
      if i <? length data - 4 then
        if bytes_eqb (slice data i (i + 4)) [x00; x00; x00; x00]
        then analyze_strings_loop fuel' data (i + 4)
        else
          match unpack_u32_le (slice data i (i + 4)) with
          | Some str_len =>
              if (0 <? str_len)%Z && (str_len <? 1000)%Z
                 && (Z.of_nat i + 4 + str_len <? Z.of_nat (length data))%Z
              then
                match decode_utf8
                        (slice data (i + 4) (i + 4 + Z.to_nat str_len)) with
                | Some string =>
                    if isprintable string && (2 <? str_len_chars string)
                    then
                      match analyze_strings_loop fuel' data (i + 1) with
                      | Some more => Some ((i, string) :: more)
                      | None => None
                      end
                    else analyze_strings_loop fuel' data (i + 1)
                | None => analyze_strings_loop fuel' data (i + 1)
                end
              else analyze_strings_loop fuel' data (i + 1)
          | None => analyze_strings_loop fuel' data (i + 1)
          end
      else Some []
  end.

(** [strings]; [length data + 1] iterations are enough (lemma
    [analyze_strings_loop_enough_fuel]). *)
Definition analyze_strings (data : bytes) : list (nat * string) :=
  match analyze_strings_loop (S (length data)) data 0 with
  | Some strings => strings
  | None => []
  end.

End AnalyzeStrings.

(** ** Batch conversion: [batch_convert] *)

(** [os.path.join(a, b)] (POSIX) *)
Definition path_join (a c : string) : string :=
  if String.prefix "/" c then c
  else if String.eqb a EmptyString || endswith a "/" then (a ++ c)%string
  else (a ++ "/" ++ c)%string.

(** The host of a batch: the files, [os.listdir] ([None] when it raises)
    and the exception, if any, of [os.makedirs]. *)
Record directory_host : Type := mkDirectoryHost {
  dh_files : host;
  dh_listdir : string -> option (list string);
  dh_makedirs_error : string -> option exn
}.

(** The [results] dict. *)
Record batch_results : Type := mkBatchResults {
  res_success : nat;
  res_failed : nat;
  res_total : nat
}.

(** The lines a batch prints: its own and, as [Line], those of each
    conversion.  [BDashes n] is a rule of [n] dashes; [BReportOpen] and
    [BReportClose] are the two rules of equal signs around the title of the
    report, the first after an empty line. *)
Inductive batch_line : Type :=
| Line (msg : message)
| BNoFiles
| BFound (total : nat)
| BDashes (width : nat)
| BProcessing (filename : string)
| BFileError (filename : string) (e : exn)
| BReportOpen
| BReportTitle
| BReportClose
| BTotal (n : nat)
| BSuccess (n : nat)
| BFailed (n : nat)
| BFailedHeader
| BFailedFile (filename : string).

Record batch_world : Type := mkBatchWorld {
  batch_console : list batch_line;
  batch_archives : list (string * list entry)
}.

(** The state of the [for filename in cpmmodel_files] loop. *)
Record batch_state : Type := mkBatchState {
  st_success : nat;
  st_failed : nat;
  st_failed_files : list string;
  st_world : batch_world
}.

Definition batch_print (lines : list batch_line) (bw : batch_world)
  : batch_world :=
  mkBatchWorld (batch_console bw ++ lines) (batch_archives bw).

(** [filename.lower().endswith('.cpmmodel')] *)
Definition has_cpmmodel_extension (filename : string) : bool :=
  endswith (lower filename) ".cpmmodel".

Section Batch.

Variable json_loads : bytes -> loads_result.

(** A conversion run inside a batch: its lines go to the console of the
    batch, in order, and its archive to the archives. *)
Definition run_conversion (h : host) (input_path output_path : string)
    (bw : batch_world) : result bool * batch_world :=
  let '(r, w) :=
    convert_cpmmodel_to_cpmproject json_loads h input_path (Some output_path)
      (mkWorld [] (batch_archives bw)) in
  (r, mkBatchWorld (batch_console bw ++ map Line (console w)) (archives w)).

(** One iteration of the [for filename in cpmmodel_files] loop. *)
Definition batch_step (h : host) (input_directory output_directory : string)
    (st : batch_state) (filename : string) : batch_state :=
  let input_path := path_join input_directory filename in
  let output_filename := (rsplit_dot_head filename ++ ".cpmproject")%string in
  let output_path := path_join output_directory output_filename in
  let bw := batch_print [BProcessing filename] (st_world st) in
  let st' :=
    match run_conversion h input_path output_path bw with
    | (Ret true, bw') =>
        mkBatchState (st_success st + 1) (st_failed st)
                     (st_failed_files st) bw'
    | (Ret false, bw') =>
        mkBatchState (st_success st) (st_failed st + 1)
                     (st_failed_files st ++ [filename]) bw'
    | (Raise e, bw') =>
        mkBatchState (st_success st) (st_failed st + 1)
                     (st_failed_files st ++ [filename])
                     (batch_print [BFileError filename e] bw')
    end in
  mkBatchState (st_success st') (st_failed st') (st_failed_files st')
               (batch_print [BDashes 30] (st_world st')).

(** [batch_convert(input_directory, output_directory=None)] *)
Definition batch_convert (dh : directory_host) (input_directory : string)
    (output_directory : option string) (bw : batch_world)
  : result batch_results * batch_world :=
  let h := dh_files dh in
  if negb (path_exists h input_directory) then (Raise FileNotFoundError, bw)
  else
    let output_directory := get_or output_directory input_directory in
    match (if negb (path_exists h output_directory)
           then dh_makedirs_error dh output_directory
           else None) with
    | Some e => (Raise e, bw)
    | None =>
        match dh_listdir dh input_directory with
        | None => (Raise OSError, bw)
        | Some names =>
            let cpmmodel_files := filter has_cpmmodel_extension names in
            let total := length cpmmodel_files in
            if total =? 0 then
              (Ret (mkBatchResults 0 0 total), batch_print [BNoFiles] bw)
            else
              let bw := batch_print [BFound total; BDashes 50] bw in
              let st :=
                fold_left (batch_step h input_directory output_directory)
                          cpmmodel_files (mkBatchState 0 0 [] bw) in
              let bw :=
                batch_print
                  ([BReportOpen; BReportTitle; BReportClose;
                    BTotal total;
                    BSuccess (st_success st);
                    BFailed (st_failed st)]
                   ++ match st_failed_files st with
                      | [] => []
                      | _ :: _ =>
                          BFailedHeader :: map BFailedFile (st_failed_files st)
                      end)
                  (st_world st) in
              (Ret (mkBatchResults (st_success st) (st_failed st) total), bw)
        end
    end.

End Batch.

(** ** Vocabulary of the further statements *)

(** [struct.pack('<I', n)] for [0 <= n < 2^32] *)
Definition byte_of_Z (z : Z) : byte :=
  match Byte.of_N (Z.to_N (z mod 256)) with
  | Some c => c
  | None => x00
  end.

Definition pack_u32_le (n : Z) : bytes :=
  [ byte_of_Z n; byte_of_Z (n / 256); byte_of_Z (n / 65536);
    byte_of_Z (n / 16777216) ].

(** A length-prefixed field holding [payload]. *)
Definition field (payload : bytes) : bytes :=
  pack_u32_le (Z.of_nat (length payload)) ++ payload.

(** What [_read_string] makes of the raw bytes of a string. *)
Definition decode_lenient (decode_utf8 : bytes -> option string)
    (decode_utf8_ignore : bytes -> string) (raw : bytes) : string :=
  match decode_utf8 raw with
  | Some s => s
  | None => decode_utf8_ignore raw
  end.

Fixpoint has_dot (s : string) : bool :=
  match s with
  | EmptyString => false
  | String c s' => Ascii.eqb c "." || has_dot s'
  end.

(** Where a batch writes the archive of [filename]. *)
Definition batch_output_path (output_directory filename : string) : string :=
  path_join output_directory (rsplit_dot_head filename ++ ".cpmproject").

(** The conversion of [filename] succeeds when it is run alone, on a
    console and a disk of its own. *)
Definition converts_alone (json_loads : bytes -> loads_result) (h : host)
    (input_directory output_directory filename : string) : bool :=
  match fst (convert_cpmmodel_to_cpmproject json_loads h
               (path_join input_directory filename)
               (Some (batch_output_path output_directory filename))
               initial_world) with
  | Ret true => true
  | _ => false
  end.

(** The report at the end of a batch. *)
Definition batch_report (total success failed : nat)
    (failed_files : list string) : list batch_line :=
  [BReportOpen; BReportTitle; BReportClose;
   BTotal total; BSuccess success; BFailed failed]
  ++ match failed_files with
     | [] => []
     | _ :: _ => BFailedHeader :: map BFailedFile failed_files
     end.

(** A decoder for ASCII input: the bytes below 128 as they are. *)
Definition ascii_decode (raw : bytes) : option string :=
  if forallb (fun c => Byte.to_nat c <? 128) raw
  then Some (string_of_list_byte raw) else None.

Definition ascii_decode_ignore (raw : bytes) : string :=
  string_of_list_byte (filter (fun c => Byte.to_nat c <? 128) raw).

(** [str.isprintable] on ASCII. *)
Fixpoint ascii_isprintable (s : string) : bool :=
  match s with
  | EmptyString => true
  | String c s' =>
      let n := nat_of_ascii c in
      (32 <=? n) && (n <=? 126) && ascii_isprintable s'
  end.

(** A host with the directory [models]: two files that convert, a name
    that is listed but does not exist, a file that cannot be read, and a file
    with another extension.  The directory [out] does not exist yet. *)
Definition sample_directory_host : directory_host :=
  mkDirectoryHost
    (mkHost
       (fun p =>
          existsb (String.eqb p)
            [ "models"; "models/a.cpmmodel"; "models/B.CPMMODEL";
              "models/locked.cpmmodel"; "models/notes.txt" ]%string)
       (fun p =>
          if String.eqb p "models/a.cpmmodel" then Some sample_object
          else if String.eqb p "models/B.CPMMODEL" then Some two_images
          else None)
       (fun _ _ => None))
    (fun d =>
       if String.eqb d "models"
       then Some [ "a.cpmmodel"; "notes.txt"; "B.CPMMODEL";
                   "ghost.cpmmodel"; "locked.cpmmodel" ]%string
       else None)
    (fun _ => None).

(** Two fields one after the other, after two bytes of noise. *)
Definition two_fields : bytes :=
  [xff; x00] ++ field (b "head") ++ field (b "body") ++ [x01].

(** * Properties *)

Example ref_loads_empty : RefJson.loads (b "{}") = Parsed [].
Proof. reflexivity. Qed.

Example ref_loads_sample : RefJson.loads sample_object = Parsed sample_model.
Proof. vm_compute. reflexivity. Qed.

Example ref_loads_rejects_noise :
  RefJson.loads (skipn 1 noisy_prefix ++ sample_object ++ firstn 1 noisy_suffix)
  = DecodeError.
Proof. vm_compute. reflexivity. Qed.

(** The model with one part is written verbatim, beside the placeholder. *)
Example convert_sample_object :
  snd (convert_cpmmodel_to_cpmproject RefJson.loads
         (single_file_host "knight.cpmmodel" sample_object false)
         "knight.cpmmodel" None initial_world)
  = mkWorld
      [ MsgConverting "knight.cpmmodel" "knight.cpmproject";
        MsgSuccess;
        MsgCreatedFile "knight.cpmproject";
        MsgTexturesExtracted 0 ]
      [ ("knight.cpmproject"%string,
         [ ("project.json"%string,
            JsonText
              (JDict [ ("version"%string, JStr "0.6.0");
                       ("name"%string, JStr "knight");
                       ("description"%string,
                          JStr "Converted from knight.cpmmodel");
                       ("author"%string, JStr "CPM Converter");
                       ("exportVersion"%string, JStr "1.0.0") ]));
           ("model.json"%string, JsonText (JDict sample_model));
           ("textures/.keep"%string, RawBytes []);
           ("animations/.keep"%string, RawBytes []) ]) ].
Proof. vm_compute. reflexivity. Qed.

(** Two images and no JSON: two textures and the default model. *)
Example convert_two_images :
  map fst
    (archive_entries
       (read_cpmmodel RefJson.loads
          (single_file_host "m.cpmmodel" two_images false) "m.cpmmodel"))
  = [ "project.json"%string; "model.json"%string;
      "textures/texture_0.png"%string; "textures/texture_1.png"%string;
      "animations/.keep"%string ]
  /\ model_document
       (read_cpmmodel RefJson.loads
          (single_file_host "m.cpmmodel" two_images false) "m.cpmmodel")
     = default_model.
Proof. split; vm_compute; reflexivity. Qed.

Example path_helpers :
  basename "models/Knight.v2.CPMMODEL" = "Knight.v2.CPMMODEL"%string
  /\ splitext_root "Knight.v2.CPMMODEL" = "Knight.v2"%string
  /\ splitext_root ".hidden" = ".hidden"%string
  /\ rsplit_dot_head "models/Knight.v2.CPMMODEL" = "models/Knight.v2"%string
  /\ endswith (lower "models/Knight.v2.CPMMODEL") ".cpmmodel" = true
  /\ endswith (lower "cpmmodel") ".cpmmodel" = false.
Proof. repeat split. Qed.

Example scan_two_images :
  map tex_name (scan_textures two_images)
  = [Some "texture_0.png"%string; Some "texture_1.png"%string].
Proof. vm_compute. reflexivity. Qed.

(** ** [bytes] builtins *)

Lemma byte_eqb_eq (x y : byte) : Byte.eqb x y = true <-> x = y.
Proof.
  split; [apply byte_dec_bl | apply byte_dec_lb].
Qed.

Lemma byte_eqb_refl (x : byte) : Byte.eqb x x = true.
Proof. now apply byte_eqb_eq. Qed.

Lemma starts_with_app (sub tail : bytes) : starts_with sub (sub ++ tail) = true.
Proof.
  induction sub as [|x sub IH]; simpl; [reflexivity|].
  now rewrite byte_eqb_refl, IH.
Qed.

Lemma starts_with_firstn (sub data : bytes) :
  starts_with sub data = true -> firstn (length sub) data = sub.
Proof.
  revert data; induction sub as [|x sub IH]; intros [|y data]; simpl;
    try reflexivity; try discriminate.
  intros H; apply andb_prop in H as [Hx Hs].
  apply byte_eqb_eq in Hx; subst y.
  now rewrite IH.
Qed.

Lemma starts_with_length (sub data : bytes) :
  starts_with sub data = true -> length sub <= length data.
Proof.
  intros H; apply starts_with_firstn in H.
  rewrite <- H at 1. rewrite length_firstn. lia.
Qed.

Lemma occurs_at_bound (sub data : bytes) (p : nat) :
  sub <> [] -> occurs_at sub data p = true -> p + length sub <= length data.
Proof.
  unfold occurs_at; intros Hsub H.
  apply starts_with_length in H. rewrite length_skipn in H.
  destruct sub; [congruence|]. simpl in *. lia.
Qed.

Lemma find_in_some (sub rest : bytes) (pos p : nat) :
  find_in sub rest pos = Some p ->
  exists k, p = pos + k /\ k <= length rest
            /\ starts_with sub (skipn k rest) = true
            /\ forall j, j < k -> starts_with sub (skipn j rest) = false.
Proof.
  revert pos; induction rest as [|c rest IH]; intros pos; simpl.
  - destruct (starts_with sub []) eqn:E; [|discriminate].
    intros [= <-]. exists 0. repeat split; auto; lia.
  - destruct (starts_with sub (c :: rest)) eqn:E.
    + intros [= <-]. exists 0. repeat split; auto; lia.
    + intros H. apply IH in H as (k & -> & Hk & Hocc & Hmin).
      exists (S k). repeat split; simpl; auto; try lia.
      intros [|j] Hj; simpl; [exact E | apply Hmin; lia].
Qed.

Lemma find_in_none (sub rest : bytes) (pos : nat) :
  find_in sub rest pos = None ->
  forall j, starts_with sub (skipn j rest) = false.
Proof.
  revert pos; induction rest as [|c rest IH]; intros pos; simpl.
  - destruct (starts_with sub []) eqn:E; [discriminate|].
    intros _ j. now rewrite skipn_nil.
  - destruct (starts_with sub (c :: rest)) eqn:E; [discriminate|].
    intros H [|j]; simpl; [exact E | eapply IH, H].
Qed.

(** [find] returns the leftmost occurrence at or after [start]. *)
Lemma find_some (data sub : bytes) (start p : nat) :
  find data sub start = Some p ->
  start <= p <= length data
  /\ occurs_at sub data p = true
  /\ forall q, start <= q < p -> occurs_at sub data q = false.
Proof.
  unfold find, occurs_at.
  destruct (length data <? start) eqn:E; [discriminate|].
  apply Nat.ltb_ge in E.
  intros H. apply find_in_some in H as (k & -> & Hk & Hocc & Hmin).
  rewrite length_skipn in Hk. rewrite skipn_skipn in Hocc.
  repeat split; try lia.
  - now rewrite Nat.add_comm.
  - intros q Hq. specialize (Hmin (q - start)).
    rewrite skipn_skipn in Hmin.
    replace (q - start + start) with q in Hmin by lia.
    apply Hmin; lia.
Qed.

Lemma find_none (data sub : bytes) (start : nat) :
  sub <> [] ->
  find data sub start = None ->
  forall q, start <= q -> occurs_at sub data q = false.
Proof.
  unfold find, occurs_at. intros Hsub H q Hq.
  destruct (length data <? start) eqn:E.
  - apply Nat.ltb_lt in E.
    rewrite skipn_all2 by lia. destruct sub; [congruence | reflexivity].
  - pose proof (find_in_none _ _ _ H (q - start)) as Hn.
    rewrite skipn_skipn in Hn.
    now replace (q - start + start) with q in Hn by lia.
Qed.

(** ** Image recovery *)

Lemma png_signature_nonempty : png_signature <> [].
Proof. discriminate. Qed.

Lemma iend_marker_nonempty : iend_marker <> [].
Proof. discriminate. Qed.

(** The loop terminates: each iteration moves [search_start] past the
    signature it found, and a signature ends inside the buffer. *)
Lemma png_loop_enough_fuel (fuel : nat) (data : bytes) (s c : nat) :
  s <= length data -> length data < fuel + s ->
  exists l, png_loop fuel data s c = Some l.
Proof.
  revert s c; induction fuel as [|fuel IH]; intros s c Hs Hfuel; [lia|].
  simpl. destruct (find data png_signature s) as [p|] eqn:Hsig.
  - apply find_some in Hsig as (Hp & Hocc & _).
    apply occurs_at_bound in Hocc; [|apply png_signature_nonempty].
    simpl in Hocc.
    destruct (find data iend_marker p) as [e|].
    + destruct (IH (p + 1) (c + 1)) as [l Hl]; try lia.
      rewrite Hl. eauto.
    + apply IH; lia.
  - eauto.
Qed.

Lemma png_loop_spec (fuel : nat) (data : bytes) (s c : nat) (l : list texture) :
  png_loop fuel data s c = Some l ->
  exists images, l = textures_of data c images /\ recorded_from data s images.
Proof.
  revert s c l; induction fuel as [|fuel IH]; intros s c l; [discriminate|].
  simpl. destruct (find data png_signature s) as [p0|] eqn:Hsig.
  - pose proof (find_some _ _ _ _ Hsig) as (Hp0 & Hocc0 & Hmin).
    destruct (find data iend_marker p0) as [e0|] eqn:Hend.
    + destruct (png_loop fuel data (p0 + 1) (c + 1)) as [more|] eqn:Hmore;
        [|discriminate].
      intros [= <-].
      destruct (IH _ _ _ Hmore) as (images & -> & Hsorted & Hmem).
      exists ((p0, e0) :: images). split; [reflexivity|]. split.
      * simpl. constructor; [assumption|].
        apply Forall_forall. intros p Hin.
        apply in_map_iff in Hin as ([p' e] & <- & Hin).
        apply Hmem in Hin. simpl. lia.
      * intros p e. simpl. rewrite Hmem. split.
        -- intros [[= <- <-] | (Hle & Hocc & Hfind)]; repeat split; auto; lia.
        -- intros (Hle & Hocc & Hfind).
           destruct (Nat.eq_dec p p0) as [-> | Hne].
           ++ left. congruence.
           ++ right. repeat split; auto.
              destruct (le_lt_dec (p0 + 1) p) as [|Hlt]; [assumption|].
              rewrite Hmin in Hocc by lia. discriminate.
    + intros Hl. destruct (IH _ _ _ Hl) as (images & -> & Hsorted & Hmem).
      exists images. split; [reflexivity|]. split; [assumption|].
      intros p e. rewrite Hmem. split.
      * intros (Hle & Hocc & Hfind); repeat split; auto; lia.
      * intros (Hle & Hocc & Hfind). repeat split; auto.
        destruct (Nat.eq_dec p p0) as [-> | Hne]; [congruence|].
        destruct (le_lt_dec (p0 + 1) p) as [|Hlt]; [assumption|].
        rewrite Hmin in Hocc by lia. discriminate.
  - intros [= <-]. exists []. split; [reflexivity|]. split; [constructor|].
    intros p e. simpl. split; [tauto|].
    intros (Hle & Hocc & _).
    rewrite (find_none _ _ _ png_signature_nonempty Hsig _ Hle) in Hocc.
    discriminate.
Qed.

(** The textures of a buffer are those of its recorded images, named from
    zero. *)
Lemma scan_textures_spec (data : bytes) :
  exists images,
    scan_textures data = textures_of data 0 images
    /\ recorded_from data 0 images.
Proof.
  unfold scan_textures.
  destruct (png_loop_enough_fuel (S (length data)) data 0 0) as [l Hl];
    try lia.
  rewrite Hl. eapply png_loop_spec, Hl.
Qed.

Lemma length_textures_of (data : bytes) (k : nat) (images : list image) :
  length (textures_of data k images) = length images.
Proof.
  revert k; induction images as [|img images IH]; intros k; simpl; auto.
Qed.

Lemma nth_error_textures_of (data : bytes) (k i : nat) (images : list image) :
  nth_error (textures_of data k images) i
  = option_map (texture_of data (k + i)) (nth_error images i).
Proof.
  revert k i; induction images as [|img images IH]; intros k [|i]; simpl;
    try reflexivity.
  - now rewrite Nat.add_0_r.
  - rewrite IH. now replace (k + 1 + i) with (k + S i) by lia.
Qed.

Lemma in_textures_of (data : bytes) (k : nat) (images : list image)
    (t : texture) :
  In t (textures_of data k images) ->
  exists i img, nth_error images i = Some img /\ t = texture_of data (k + i) img.
Proof.
  intros Hin. apply In_nth_error in Hin as [i Hi].
  rewrite nth_error_textures_of in Hi.
  destruct (nth_error images i) as [img|] eqn:E; [|discriminate].
  injection Hi as <-. eauto.
Qed.


Lemma firstn_plus (a c : nat) (l : bytes) :
  firstn (a + c) l = firstn a l ++ firstn c (skipn a l).
Proof.
  revert l; induction a as [|a IH]; intros [|x l]; simpl;
    try reflexivity.
  - now rewrite firstn_nil.
  - now rewrite IH.
Qed.

Lemma slice_split (data : bytes) (i m j : nat) :
  i <= m <= j -> slice data i j = slice data i m ++ slice data m j.
Proof.
  intros H. unfold slice.
  replace (j - i) with ((m - i) + (j - m)) by lia.
  rewrite firstn_plus, skipn_skipn.
  now replace (m - i + i) with m by lia.
Qed.

Lemma slice_occurrence (sub data : bytes) (p : nat) :
  occurs_at sub data p = true -> slice data p (p + length sub) = sub.
Proof.
  unfold occurs_at, slice. intros H.
  replace (p + length sub - p) with (length sub) by lia.
  now apply starts_with_firstn.
Qed.

Lemma starts_with_firstn_ge (sub l : bytes) (n : nat) :
  starts_with sub l = true -> length sub <= n ->
  starts_with sub (firstn n l) = true.
Proof.
  intros H Hn. pose proof (starts_with_firstn _ _ H) as Hf.
  rewrite <- (firstn_skipn (length sub) (firstn n l)).
  rewrite firstn_firstn, Nat.min_l by assumption.
  rewrite Hf. apply starts_with_app.
Qed.

Lemma length_slice (data : bytes) (i j : nat) :
  length (slice data i j) = Nat.min (j - i) (length data - i).
Proof.
  unfold slice. now rewrite length_firstn, length_skipn.
Qed.

Lemma in_signature_positions (data : bytes) (p : nat) :
  In p (signature_positions data) <-> occurs_at png_signature data p = true.
Proof.
  unfold signature_positions. rewrite filter_In, in_seq. split.
  - tauto.
  - intros H. split; [|assumption].
    apply occurs_at_bound in H; [|apply png_signature_nonempty].
    simpl in H. lia.
Qed.

(** C5 (as amended): for every buffer the recorded textures are, in order
    and named from zero, the images of the buffer.  Each image starts at an
    occurrence of the eight signature bytes and runs over the first [IEND]
    marker at or after it and the bytes of [data[e+4:e+8]] after the marker:
    four bytes when the buffer has them, fewer when it ends earlier.  Start
    positions are strictly ascending, so no two ranges share one.  A signature
    with no [IEND] after it records nothing, and every signature that has
    one is recorded, also after such a miss. *)
Theorem textures_span_signature_to_iend (data : bytes) :
  exists images : list image,
    scan_textures data = textures_of data 0 images
    /\ StronglySorted lt (map fst images)
    /\ (forall p e, In (p, e) images ->
          occurs_at png_signature data p = true
          /\ p <= e
          /\ occurs_at iend_marker data e = true
          /\ (forall q, p <= q < e -> occurs_at iend_marker data q = false)
          /\ starts_with png_signature (slice data p (e + 8)) = true
          /\ slice data p (e + 8)
             = slice data p e ++ iend_marker ++ slice data (e + 4) (e + 8)
          /\ length (slice data (e + 4) (e + 8))
             = Nat.min 4 (length data - (e + 4)))
    /\ (forall p, occurs_at png_signature data p = true ->
          match find data iend_marker p with
          | Some e => In (p, e) images
          | None => ~ In p (map fst images)
          end).
Proof.
  destruct (scan_textures_spec data) as (images & Heq & Hsorted & Hmem).
  exists images. repeat split; auto.
  - now apply Hmem in H.
  - apply Hmem in H as (_ & _ & Hfind).
    apply find_some in Hfind. lia.
  - apply Hmem in H as (_ & _ & Hfind).
    now apply find_some in Hfind.
  - apply Hmem in H as (_ & _ & Hfind).
    apply find_some in Hfind as (_ & _ & Hmin). exact Hmin.
  - apply Hmem in H as (_ & Hocc & Hfind).
    apply find_some in Hfind as (Hle & _ & _).
    unfold slice. apply starts_with_firstn_ge; [exact Hocc | simpl; lia].
  - apply Hmem in H as (_ & _ & Hfind).
    apply find_some in Hfind as (Hle & Hocc & _).
    rewrite (slice_split data p e (e + 8)) by lia.
    rewrite (slice_split data e (e + 4) (e + 8)) by lia.
    pose proof (slice_occurrence iend_marker data e Hocc) as Hmark.
    change (length iend_marker) with 4 in Hmark.
    now rewrite Hmark.
  - rewrite length_slice. lia.
  - intros p Hocc. destruct (find data iend_marker p) as [e|] eqn:Hfind.
    + apply Hmem. repeat split; auto; lia.
    + intros Hin. apply in_map_iff in Hin as ([p' e] & Hp & Hin).
      simpl in Hp; subst p'. apply Hmem in Hin as (_ & _ & Hsome).
      congruence.
Qed.

(** C5 as stated fails on a buffer that ends right after the marker: the
    signature followed by [IEND] alone is recorded as a texture of twelve
    bytes, whose last four bytes are the marker itself; it does not end with
    the marker and four checksum bytes. *)
Lemma texture_without_checksum :
  let data := png_signature ++ iend_marker in
  scan_textures data
  = [mkTexture (Some "texture_0.png"%string) (Some data)]
  /\ find data iend_marker 0 = Some 8
  /\ length data = 12
  /\ ~ (exists body crc,
          length crc = 4
          /\ data = png_signature ++ body ++ iend_marker ++ crc).
Proof.
  cbv zeta. repeat split; try reflexivity.
  intros (body & crc & Hlen & Heq).
  apply (f_equal (@length byte)) in Heq.
  repeat rewrite length_app in Heq. simpl in Heq. lia.
Qed.



(** ** JSON recovery *)

Lemma brace_net_cons (x : byte) (l : bytes) :
  brace_net (x :: l)
  = ((if Byte.eqb x open_brace then 1 else 0)
     - (if Byte.eqb x close_brace then 1 else 0)
     + brace_net l)%Z.
Proof.
  unfold brace_net; simpl.
  destruct (Byte.eqb x open_brace), (Byte.eqb x close_brace); lia.
Qed.

(** From depth [c], a body that brings the depth to zero exactly at its
    end stops the scan there, whatever follows. *)
Lemma brace_scan_closes (body post : bytes) (c j : nat) :
  (Z.of_nat c + brace_net body = 0)%Z ->
  (forall k, k < length body ->
             (0 < Z.of_nat c + brace_net (firstn k body))%Z) ->
  brace_scan (body ++ post) c j = (0, j + length body).
Proof.
  revert c j; induction body as [|x body IH]; intros c j Hend Hpos.
  - unfold brace_net in Hend; simpl in Hend.
    assert (c = 0) as -> by lia.
    rewrite Nat.add_0_r. destruct post; reflexivity.
  - pose proof (Hpos 0 ltac:(simpl; lia)) as H0.
    unfold brace_net in H0; simpl in H0.
    simpl. destruct (0 <? c) eqn:Hc; [|apply Nat.ltb_ge in Hc; lia].
    rewrite brace_net_cons in Hend.
    assert (Hstep : forall k, k < length body ->
              (0 < Z.of_nat c
                   + ((if Byte.eqb x open_brace then 1 else 0)
                      - (if Byte.eqb x close_brace then 1 else 0))
                   + brace_net (firstn k body))%Z).
    { intros k Hk. specialize (Hpos (S k) ltac:(simpl; lia)).
      simpl in Hpos. rewrite brace_net_cons in Hpos. lia. }
    destruct (Byte.eqb x open_brace) eqn:Hopen.
    + assert (Byte.eqb x close_brace = false) as Hclose.
      { apply byte_eqb_eq in Hopen; subst x. reflexivity. }
      rewrite Hclose in *.
      rewrite IH; [f_equal; lia | lia |].
      intros k Hk. specialize (Hstep k Hk). lia.
    + destruct (Byte.eqb x close_brace) eqn:Hclose.
      * rewrite IH; [f_equal; lia | lia |].
        intros k Hk. specialize (Hstep k Hk). lia.
      * rewrite IH; [f_equal; lia | lia |].
        intros k Hk. specialize (Hstep k Hk). lia.
Qed.

Lemma balanced_object_inv (obj : bytes) :
  balanced_object obj = true ->
  exists body,
    obj = open_brace :: body
    /\ (1 + brace_net body = 0)%Z
    /\ forall k, k < length body -> (0 < 1 + brace_net (firstn k body))%Z.
Proof.
  destruct obj as [|c body]; simpl; [discriminate|].
  intros H. apply andb_prop in H as [H Hall]. apply andb_prop in H as [Hc Hz].
  apply byte_eqb_eq in Hc; subst c. exists body.
  split; [reflexivity|]. split; [now apply Z.eqb_eq|].
  intros k Hk. rewrite forallb_forall in Hall.
  apply Z.ltb_lt, Hall, in_seq. lia.
Qed.

Section JsonScan.

Variable json_loads : bytes -> loads_result.

(** The attempt at the opening brace of an embedded balanced object hands
    exactly that object to the parser. *)
Lemma json_attempt_embedded (pre obj post : bytes) :
  balanced_object obj = true ->
  json_attempt json_loads (pre ++ obj ++ post) (length pre)
  = match json_loads obj with
    | Parsed d => Hit d (length pre + length obj)
    | DecodeError => Skip
    | OtherError => Crash
    end.
Proof.
  intros Hbal.
  apply balanced_object_inv in Hbal as (body & -> & Hend & Hpos).
  unfold json_attempt.
  rewrite nth_error_app2, Nat.sub_diag by lia. simpl nth_error.
  cbv beta iota. rewrite byte_eqb_refl.
  assert (Hskip : skipn (length pre + 1) (pre ++ (open_brace :: body) ++ post)
                  = body ++ post).
  { rewrite skipn_app, skipn_all2 by lia.
    replace (length pre + 1 - length pre) with 1 by lia. reflexivity. }
  rewrite Hskip.
  rewrite (brace_scan_closes body post 1 (length pre + 1)); auto.
  simpl Nat.eqb. cbv iota.
  assert (Hslice : slice (pre ++ (open_brace :: body) ++ post) (length pre)
                     (length pre + 1 + length body)
                   = open_brace :: body).
  { unfold slice. rewrite skipn_app, skipn_all2, Nat.sub_diag by lia.
    simpl skipn. simpl app.
    replace (length pre + 1 + length body - length pre)
      with (S (length body)) by lia.
    simpl. f_equal.
    rewrite firstn_app, firstn_all, Nat.sub_diag. simpl.
    now rewrite app_nil_r. }
  rewrite Hslice. simpl length.
  replace (length pre + S (length body))
    with (length pre + 1 + length body) by lia.
  reflexivity.
Qed.

Lemma json_loop_skip (data : bytes) (l1 l2 : list nat) :
  (forall i, In i l1 -> json_attempt json_loads data i = Skip) ->
  json_loop json_loads data (l1 ++ l2) = json_loop json_loads data l2.
Proof.
  induction l1 as [|i l1 IH]; intros H; simpl; [reflexivity|].
  rewrite (H i) by now left.
  apply IH. intros k Hk. apply H. now right.
Qed.

(** A hit needs a byte after the opening brace, so its position is one the
    loop visits. *)
Lemma json_attempt_hit_bound (data : bytes) (i json_end : nat) (d : dict) :
  json_attempt json_loads data i = Hit d json_end -> i + 1 < length data.
Proof.
  unfold json_attempt.
  destruct (nth_error data i) as [c|] eqn:Hc; [|discriminate].
  assert (Hi : i < length data) by (apply nth_error_Some; congruence).
  destruct (Byte.eqb c open_brace); [|discriminate].
  destruct (skipn (i + 1) data) as [|y rest] eqn:Hrest.
  - simpl. discriminate.
  - intros _. apply (f_equal (@length byte)) in Hrest.
    rewrite length_skipn in Hrest. simpl in Hrest. lia.
Qed.

(** The loop returns what the first attempt that is not skipped decides. *)
Lemma scan_json_first (data : bytes) (i : nat) :
  i + 1 < length data ->
  (forall k, k < i -> json_attempt json_loads data k = Skip) ->
  scan_json json_loads data
  = match json_attempt json_loads data i with
    | Hit d _ => Some d
    | Skip => json_loop json_loads data (seq (S i) (length data - 1 - S i))
    | Crash => None
    end.
Proof.
  intros Hi Hskip. unfold scan_json, json_positions.
  set (n := length data - 1 - S i).
  replace (length data - 1) with (i + S n) by (subst n; lia).
  rewrite seq_app, json_loop_skip.
  - reflexivity.
  - intros k Hk. apply in_seq in Hk. apply Hskip. lia.
Qed.


End JsonScan.


(** C2 (as amended): a byte range with balanced braces that the parser
    accepts, embedded at a position before which every attempt is abandoned,
    is the region the scan hands to the parser, and its value is what the scan
    returns, whatever follows the range.  The recovered model is that value
    when it is a non-empty object; an empty object is replaced by the
    version-1 skeleton. *)
Theorem embedded_object_recovered
    (json_loads : bytes -> loads_result) (pre obj post : bytes) (d : dict)
    (file_path : string) :
  balanced_object obj = true ->
  json_loads obj = Parsed d ->
  (forall i, i < length pre ->
             json_attempt json_loads (pre ++ obj ++ post) i = Skip) ->
  scan_json json_loads (pre ++ obj ++ post) = Some d
  /\ exists r,
       extract json_loads (pre ++ obj ++ post) file_path = Some r
       /\ md_model r = Some (match d with
                             | [] => skeleton_model
                             | _ :: _ => d
                             end).
Proof.
  intros Hbal Hloads Hskip.
  assert (Hscan : scan_json json_loads (pre ++ obj ++ post) = Some d).
  { rewrite (scan_json_first json_loads _ (length pre)); auto.
    - now rewrite json_attempt_embedded, Hloads.
    - apply balanced_object_inv in Hbal as (body & -> & Hend & _).
      destruct body as [|x body]; [unfold brace_net in Hend; simpl in Hend; lia|].
      repeat rewrite length_app. simpl. lia. }
  split; [assumption|].
  unfold extract. rewrite Hscan.
  eexists. split; [reflexivity|].
  destruct d; reflexivity.
Qed.

Lemma embedded_object_recovered_witness :
  balanced_object sample_object = true
  /\ scan_json RefJson.loads (noisy_prefix ++ sample_object ++ noisy_suffix)
     = Some sample_model
  /\ exists r,
       extract RefJson.loads (noisy_prefix ++ sample_object ++ noisy_suffix)
         "knight.cpmmodel"
       = Some r
       /\ md_model r = Some sample_model.
Proof.
  split; [reflexivity|].
  apply (embedded_object_recovered RefJson.loads noisy_prefix sample_object
           noisy_suffix sample_model "knight.cpmmodel").
  - reflexivity.
  - vm_compute. reflexivity.
  - intros i Hi. destruct i as [|[|[|i]]];
      [vm_compute; reflexivity .. | simpl in Hi; lia].
Defined.

(** C2 as stated fails on the buffer [{}]: the range is balanced, the
    parser accepts it at the first position, and the recovered model is the
    skeleton, not the parsed (empty) object. *)
Lemma empty_object_not_recovered :
  balanced_object (b "{}") = true
  /\ RefJson.loads (b "{}") = Parsed []
  /\ scan_json RefJson.loads ([] ++ b "{}" ++ []) = Some []
  /\ exists r,
       extract RefJson.loads ([] ++ b "{}" ++ []) "m.cpmmodel" = Some r
       /\ md_model r = Some skeleton_model
       /\ md_model r <> Some [].
Proof.
  repeat split.
  eexists. split; [reflexivity|]. split; [reflexivity | discriminate].
Qed.



(** ** The Packager *)


Lemma write_textures_count (l : list texture) (i n : nat) :
  snd (write_textures l i n) = n + length (fst (write_textures l i n))
  /\ length (fst (write_textures l i n)) = length (filter has_data l).
Proof.
  revert i n; induction l as [|t l IH]; intros i n; [simpl; lia|].
  destruct t as [name [[|x data]|]];
    cbn [write_textures filter has_data tex_data tex_name get_or].
  - apply IH.
  - destruct (IH (i + 1) (n + 1)) as [Hs Hl].
    destruct (write_textures l (i + 1) (n + 1)) as [entries k].
    cbn [fst snd length] in *. lia.
  - apply IH.
Qed.

Lemma textures_added_count (m : model_data) :
  textures_added m = length (filter has_data (get_or (md_textures m) [])).
Proof.
  unfold textures_added.
  destruct (write_textures_count (get_or (md_textures m) []) 0 0) as [Hs Hl].
  rewrite Hs, Hl. reflexivity.
Qed.

(** Every texture the scan records has data: it holds at least the
    signature. *)
Lemma scan_textures_have_data (data : bytes) :
  filter has_data (scan_textures data) = scan_textures data.
Proof.
  destruct (scan_textures_spec data) as (images & -> & _ & Hmem).
  apply forallb_filter_id, forallb_forall. intros t Hin.
  apply in_textures_of in Hin as (i & [p e] & Himg & ->).
  apply nth_error_In, Hmem in Himg as (_ & Hocc & Hfind).
  apply find_some in Hfind as (Hle & _ & _).
  apply occurs_at_bound in Hocc; [|apply png_signature_nonempty].
  simpl in Hocc. unfold has_data, texture_of. simpl.
  destruct (slice data p (e + 8)) eqn:Hs; [|reflexivity].
  apply (f_equal (@length byte)) in Hs. rewrite length_slice in Hs.
  simpl in Hs. lia.
Qed.

Lemma create_cpmproject_run (h : host) (m : model_data) (output_path : string)
    (w : world) :
  create_cpmproject h m output_path w
  = match zip_write_error h output_path (archive_entries m) with
    | Some e =>
        (Raise e, mkWorld (console w ++ [MsgPackagingError e]) (archives w))
    | None =>
        (Ret None,
         mkWorld (console w) ((output_path, archive_entries m) :: archives w))
    end.
Proof.
  unfold create_cpmproject, try_except, bind, write_zip.
  destruct (zip_write_error h output_path (archive_entries m)); reflexivity.
Qed.

(** ** The top-level conversion *)

Section ConvertFacts.

Variable json_loads : bytes -> loads_result.
Variable h : host.
Variable input_path : string.
Variable output_path : option string.

Lemma extract_truthy (data : bytes) (r : model_data) :
  extract json_loads data input_path = Some r ->
  model_data_truthy r = true /\ md_textures r = Some (scan_textures data).
Proof.
  unfold extract. destruct (scan_json json_loads data); [|discriminate].
  intros [= <-]. split; reflexivity.
Qed.

Lemma convert_input_missing (w : world) :
  path_exists h input_path = false ->
  convert_cpmmodel_to_cpmproject json_loads h input_path output_path w
  = (Raise FileNotFoundError, w).
Proof.
  intros H. unfold convert_cpmmodel_to_cpmproject. now rewrite H.
Qed.

Lemma convert_wrong_extension (w : world) :
  path_exists h input_path = true ->
  endswith (lower input_path) ".cpmmodel" = false ->
  convert_cpmmodel_to_cpmproject json_loads h input_path output_path w
  = (Raise ValueError, w).
Proof.
  intros H1 H2. unfold convert_cpmmodel_to_cpmproject. now rewrite H1, H2.
Qed.

(** The conversion of an accepted path, by what [read_cpmmodel] returned
    and whether the archive could be written. *)
Lemma convert_accepted (w : world) :
  path_exists h input_path = true ->
  endswith (lower input_path) ".cpmmodel" = true ->
  convert_cpmmodel_to_cpmproject json_loads h input_path output_path w
  = let m := read_cpmmodel json_loads h input_path in
    let out := resolve_output_path input_path output_path in
    if negb (model_data_truthy m) then
      (Ret false,
       mkWorld (console w ++ [MsgConverting input_path out; MsgReadFailed])
               (archives w))
    else
      match zip_write_error h out (archive_entries m) with
      | Some e =>
          (Ret false,
           mkWorld (console w ++ [MsgConverting input_path out;
                                  MsgPackagingError e;
                                  MsgConversionError e])
                   (archives w))
      | None =>
          (Ret true,
           mkWorld (console w ++ [MsgConverting input_path out;
                                  MsgSuccess;
                                  MsgCreatedFile out;
                                  MsgTexturesExtracted
                                    (length (get_or (md_textures m) []))])
                   ((out, archive_entries m) :: archives w))
      end.
Proof.
  intros H1 H2. unfold convert_cpmmodel_to_cpmproject.
  rewrite H1, H2. cbn [negb].
  unfold try_except, bind, print, ret, raise. cbv zeta.
  destruct (model_data_truthy (read_cpmmodel json_loads h input_path));
    cbn [negb fst snd console archives].
  - rewrite create_cpmproject_run.
    destruct (zip_write_error h _ _); cbn [console archives];
      now rewrite <- !app_assoc.
  - now rewrite <- app_assoc.
Qed.


Lemma read_cpmmodel_truthy :
  model_data_truthy (read_cpmmodel json_loads h input_path) = true ->
  exists data,
    file_content h input_path = Some data
    /\ extract json_loads data input_path
       = Some (read_cpmmodel json_loads h input_path).
Proof.
  unfold read_cpmmodel.
  destruct (file_content h input_path) as [data|]; [|discriminate].
  destruct (extract json_loads data input_path) as [r|] eqn:He;
    [|discriminate].
  intros _. now exists data.
Qed.

End ConvertFacts.


(** C1 (as amended): a file of zero length is converted without an
    exception and the conversion succeeds: the scan finds nothing, the model
    is the skeleton, the archive holds the default model and the two
    placeholders, and the result is [True].  The result is [False] only when
    the archive cannot be written. *)
Theorem empty_buffer_converts
    (json_loads : bytes -> loads_result) (h : host) (input_path : string)
    (output_path : option string) (w : world) :
  path_exists h input_path = true ->
  endswith (lower input_path) ".cpmmodel" = true ->
  file_content h input_path = Some [] ->
  convert_cpmmodel_to_cpmproject json_loads h input_path output_path w
  = let out := resolve_output_path input_path output_path in
    match zip_write_error h out (fallback_archive input_path) with
    | Some e =>
        (Ret false,
         mkWorld (console w ++ [MsgConverting input_path out;
                                MsgPackagingError e;
                                MsgConversionError e])
                 (archives w))
    | None =>
        (Ret true,
         mkWorld (console w ++ [MsgConverting input_path out;
                                MsgSuccess;
                                MsgCreatedFile out;
                                MsgTexturesExtracted 0])
                 ((out, fallback_archive input_path) :: archives w))
    end.
Proof.
  intros Hexists Hext Hcontent.
  rewrite convert_accepted by assumption.
  unfold read_cpmmodel. rewrite Hcontent. reflexivity.
Qed.

Lemma empty_buffer_converts_witness :
  file_content empty_file_host "m.cpmmodel" = Some []
  /\ convert_cpmmodel_to_cpmproject RefJson.loads empty_file_host
       "m.cpmmodel" None initial_world
     = (Ret true,
        mkWorld [MsgConverting "m.cpmmodel" "m.cpmproject";
                 MsgSuccess;
                 MsgCreatedFile "m.cpmproject";
                 MsgTexturesExtracted 0]
                [("m.cpmproject"%string, fallback_archive "m.cpmmodel")]).
Proof.
  split; [reflexivity|].
  apply (empty_buffer_converts RefJson.loads empty_file_host "m.cpmmodel"
           None initial_world); reflexivity.
Defined.

(** C1 as stated fails: on a file of zero length the conversion returns
    [True]. *)
Lemma empty_buffer_returns_true :
  file_content empty_file_host "m.cpmmodel" = Some []
  /\ fst (convert_cpmmodel_to_cpmproject RefJson.loads empty_file_host
            "m.cpmmodel" None initial_world)
     = Ret true
  /\ Ret true <> Ret false.
Proof.
  repeat split. discriminate.
Qed.

(** C6 (as amended): the conversion raises exactly for the two input
    errors it checks first, [FileNotFoundError] for a path that does not exist
    and [ValueError] for a path without the [.cpmmodel] extension, printing
    nothing.  For every other path it returns a boolean; a failure then shows
    as [False] and on the console only, and no archive is recorded. *)
Theorem convert_raises_only_input_errors
    (json_loads : bytes -> loads_result) (h : host) (input_path : string)
    (output_path : option string) (w : world) :
  (path_exists h input_path = false ->
   convert_cpmmodel_to_cpmproject json_loads h input_path output_path w
   = (Raise FileNotFoundError, w))
  /\ (path_exists h input_path = true ->
      endswith (lower input_path) ".cpmmodel" = false ->
      convert_cpmmodel_to_cpmproject json_loads h input_path output_path w
      = (Raise ValueError, w))
  /\ (path_exists h input_path = true ->
      endswith (lower input_path) ".cpmmodel" = true ->
      exists ok msgs stored,
        convert_cpmmodel_to_cpmproject json_loads h input_path output_path w
        = (Ret ok,
           mkWorld (console w
                    ++ MsgConverting input_path
                         (resolve_output_path input_path output_path)
                       :: msgs)
                   (stored ++ archives w))
        /\ (ok = false ->
            stored = []
            /\ (msgs = [MsgReadFailed]
                \/ exists e, msgs = [MsgPackagingError e;
                                     MsgConversionError e]))).
Proof.
  split; [apply convert_input_missing|].
  split; [apply convert_wrong_extension|].
  intros Hexists Hext. rewrite convert_accepted by assumption. cbv zeta.
  destruct (model_data_truthy (read_cpmmodel json_loads h input_path));
    cbn [negb].
  - destruct (zip_write_error h _ _) as [e|].
    + exists false, [MsgPackagingError e; MsgConversionError e], [].
      split; [reflexivity | eauto].
    + eexists true, _, [_]. split; [reflexivity | discriminate].
  - exists false, [MsgReadFailed], []. split; [reflexivity | auto].
Qed.

(** C6 as stated fails: the conversion raises for a path that does not
    exist and for a path with another extension. *)
Lemma convert_raises_on_input_errors :
  convert_cpmmodel_to_cpmproject RefJson.loads empty_file_host
    "missing.cpmmodel" None initial_world
  = (Raise FileNotFoundError, initial_world)
  /\ convert_cpmmodel_to_cpmproject RefJson.loads
       (single_file_host "m.txt" [] false) "m.txt" None initial_world
     = (Raise ValueError, initial_world).
Proof.
  split; reflexivity.
Qed.

(** C7 (as amended): when writing the archive fails, the Packager prints
    its error line and re-raises; the top-level conversion catches the
    exception, prints its own error line and returns [False].  Nothing is
    raised to the caller of the conversion. *)
Theorem packaging_failure_reported_not_raised
    (json_loads : bytes -> loads_result) (h : host) (input_path : string)
    (output_path : option string) (w : world) (e : exn) :
  path_exists h input_path = true ->
  endswith (lower input_path) ".cpmmodel" = true ->
  model_data_truthy (read_cpmmodel json_loads h input_path) = true ->
  zip_write_error h (resolve_output_path input_path output_path)
    (archive_entries (read_cpmmodel json_loads h input_path))
  = Some e ->
  (forall w0,
     create_cpmproject h (read_cpmmodel json_loads h input_path)
       (resolve_output_path input_path output_path) w0
     = (Raise e,
        mkWorld (console w0 ++ [MsgPackagingError e]) (archives w0)))
  /\ convert_cpmmodel_to_cpmproject json_loads h input_path output_path w
     = (Ret false,
        mkWorld (console w
                 ++ [MsgConverting input_path
                       (resolve_output_path input_path output_path);
                     MsgPackagingError e;
                     MsgConversionError e])
                (archives w)).
Proof.
  intros Hexists Hext Hread Hfail. split.
  - intros w0. now rewrite create_cpmproject_run, Hfail.
  - rewrite convert_accepted by assumption. cbv zeta.
    now rewrite Hread, Hfail.
Qed.

Lemma packaging_failure_reported_not_raised_witness :
  zip_write_error unwritable_host "m.cpmproject"
    (fallback_archive "m.cpmmodel")
  = Some OSError
  /\ (forall w0,
        create_cpmproject unwritable_host
          (read_cpmmodel RefJson.loads unwritable_host "m.cpmmodel")
          "m.cpmproject" w0
        = (Raise OSError,
           mkWorld (console w0 ++ [MsgPackagingError OSError]) (archives w0)))
  /\ convert_cpmmodel_to_cpmproject RefJson.loads unwritable_host
       "m.cpmmodel" None initial_world
     = (Ret false,
        mkWorld [MsgConverting "m.cpmmodel" "m.cpmproject";
                 MsgPackagingError OSError;
                 MsgConversionError OSError]
                []).
Proof.
  split; [reflexivity|].
  apply (packaging_failure_reported_not_raised RefJson.loads unwritable_host
           "m.cpmmodel" None initial_world OSError); reflexivity.
Defined.

(** C7 as stated fails: with an archive that cannot be written the
    conversion returns [False]; it does not raise. *)
Lemma packaging_failure_returns_false :
  zip_write_error unwritable_host "m.cpmproject"
    (fallback_archive "m.cpmmodel")
  = Some OSError
  /\ fst (convert_cpmmodel_to_cpmproject RefJson.loads unwritable_host
            "m.cpmmodel" None initial_world)
     = Ret false
  /\ @Ret bool false <> Raise OSError.
Proof.
  repeat split. discriminate.
Qed.

(** C8 (as amended): [create_cpmproject] returns no value ([None]) when
    it succeeds; the number of textures it writes, those with data, only
    decides on the [textures/.keep] placeholder.  The caller reports the
    number of textures extracted; in a conversion that is also the number
    written, because every extracted texture has data. *)
Theorem packager_returns_none_caller_counts_extracted
    (json_loads : bytes -> loads_result) (h : host) (input_path : string)
    (output_path : option string) (w : world) :
  (forall m out w0,
     fst (create_cpmproject h m out w0)
     = match zip_write_error h out (archive_entries m) with
       | Some e => Raise e
       | None => Ret None
       end)
  /\ (forall m,
        textures_added m
        = length (filter has_data (get_or (md_textures m) [])))
  /\ (forall w',
        convert_cpmmodel_to_cpmproject json_loads h input_path output_path w
        = (Ret true, w') ->
        let m := read_cpmmodel json_loads h input_path in
        let extracted := length (get_or (md_textures m) []) in
        last (console w') MsgReadFailed = MsgTexturesExtracted extracted
        /\ textures_added m = extracted).
Proof.
  split.
  { intros m out w0. rewrite create_cpmproject_run.
    destruct (zip_write_error h out (archive_entries m)); reflexivity. }
  split; [apply textures_added_count|].
  intros w' Hrun. cbv zeta.
  destruct (path_exists h input_path) eqn:Hexists;
    [|rewrite convert_input_missing in Hrun by assumption; discriminate].
  destruct (endswith (lower input_path) ".cpmmodel") eqn:Hext;
    [|rewrite convert_wrong_extension in Hrun by assumption; discriminate].
  rewrite convert_accepted in Hrun by assumption. cbv zeta in Hrun.
  destruct (model_data_truthy (read_cpmmodel json_loads h input_path))
    eqn:Htruthy; cbn [negb] in Hrun; [|discriminate].
  destruct (zip_write_error h _ _); [discriminate|].
  injection Hrun as <-. cbn [console]. split.
  - match goal with
    | |- last (?l ++ [?m1; ?m2; ?m3; ?m4]) _ = _ =>
        change (l ++ [m1; m2; m3; m4]) with (l ++ ([m1; m2; m3] ++ [m4]))
    end.
    now rewrite app_assoc, last_last.
  - apply read_cpmmodel_truthy in Htruthy as (data & _ & Hextract).
    apply extract_truthy in Hextract as [_ Htex].
    rewrite textures_added_count, Htex. cbn [get_or].
    now rewrite scan_textures_have_data.
Qed.

(** C8 as stated fails: for the model read from a file with one image,
    the Packager writes one texture and returns [None], not that count. *)
Lemma packager_returns_none :
  let m := read_cpmmodel RefJson.loads one_image_host "m.cpmmodel" in
  textures_added m = 1
  /\ fst (create_cpmproject one_image_host m "m.cpmproject" initial_world)
     = Ret None
  /\ Ret None <> Ret (Some (textures_added m)).
Proof.
  cbv zeta. repeat split. discriminate.
Qed.



(** * Properties of the rest of the converter *)

(** ** The binary field readers *)

Lemma byte_of_Z_value (z : Z) :
  Z.of_N (Byte.to_N (byte_of_Z z)) = (z mod 256)%Z.
Proof.
  unfold byte_of_Z.
  assert (Hrange : (0 <= z mod 256 < 256)%Z) by (apply Z.mod_pos_bound; lia).
  pose proof (Byte.to_of_N_option_map (Z.to_N (z mod 256))) as Hmap.
  destruct (Z.to_N (z mod 256) <=? 255)%N eqn:Hle.
  - destruct (Byte.of_N (Z.to_N (z mod 256))) as [c|]; [|discriminate].
    simpl in Hmap. injection Hmap as ->. lia.
  - apply N.leb_gt in Hle. lia.
Qed.

Lemma unpack_pack (n : Z) :
  (0 <= n < 4294967296)%Z -> unpack_u32_le (pack_u32_le n) = Some n.
Proof.
  intros Hn. unfold unpack_u32_le, pack_u32_le.
  rewrite !byte_of_Z_value. f_equal.
  pose proof (Z.div_mod n 256 ltac:(lia)) as H0.
  pose proof (Z.div_mod (n / 256) 256 ltac:(lia)) as H1.
  pose proof (Z.div_mod (n / 65536) 256 ltac:(lia)) as H2.
  replace (n / 65536)%Z with (n / 256 / 256)%Z in *
    by (rewrite Z.div_div by lia; reflexivity).
  replace (n / 16777216)%Z with (n / 256 / 256 / 256)%Z
    by (rewrite !Z.div_div by lia; reflexivity).
  assert (Hsmall : (0 <= n / 256 / 256 / 256 < 256)%Z).
  { split.
    - repeat apply Z.div_pos; lia.
    - repeat (apply Z.div_lt_upper_bound; [lia|]). lia. }
  rewrite (Z.mod_small (n / 256 / 256 / 256) 256) by lia.
  lia.
Qed.

Lemma slice_app_middle (pre mid post : bytes) :
  slice (pre ++ mid ++ post) (length pre) (length pre + length mid) = mid.
Proof.
  unfold slice. rewrite skipn_app, skipn_all2, Nat.sub_diag by lia.
  replace (length pre + length mid - length pre) with (length mid) by lia.
  simpl. rewrite firstn_app, firstn_all, Nat.sub_diag. simpl.
  apply app_nil_r.
Qed.


Lemma length_pack_u32_le (n : Z) : length (pack_u32_le n) = 4.
Proof. reflexivity. Qed.

(** What each reader does on a field embedded in a buffer. *)
Lemma read_header_of_field (pre payload post : bytes) :
  (Z.of_nat (length payload) < 4294967296)%Z ->
  (length (pre ++ field payload ++ post) <? length pre + 4) = false
  /\ unpack_u32_le
       (slice (pre ++ field payload ++ post) (length pre) (length pre + 4))
     = Some (Z.of_nat (length payload))
  /\ (Z.of_nat (length (pre ++ field payload ++ post))
      <? Z.of_nat (length pre + 4) + Z.of_nat (length payload))%Z = false
  /\ slice (pre ++ field payload ++ post) (length pre + 4)
       (length pre + 4 + length payload)
     = payload.
Proof.
  intros Hsize. unfold field.
  repeat split.
  - apply Nat.ltb_ge. rewrite !length_app, length_pack_u32_le. lia.
  - rewrite <- app_assoc.
    change (length pre + 4)
      with (length pre + length (pack_u32_le (Z.of_nat (length payload)))).
    rewrite slice_app_middle. apply unpack_pack. lia.
  - apply Z.ltb_ge. rewrite !length_app, length_pack_u32_le. lia.
  - rewrite <- !app_assoc.
    replace (length pre + 4)
      with (length (pre ++ pack_u32_le (Z.of_nat (length payload))))
      by (rewrite length_app, length_pack_u32_le; reflexivity).
    rewrite (app_assoc pre). apply slice_app_middle.
Qed.

Lemma read_texture_field (pre payload post : bytes) :
  (Z.of_nat (length payload) < 4294967296)%Z ->
  _read_texture_data (pre ++ field payload ++ post) (length pre)
  = Ret (payload, length pre + 4 + length payload).
Proof.
  intros Hsize.
  destruct (read_header_of_field pre payload post Hsize)
    as (Hlen & Hunpack & Hfit & Hslice).
  unfold _read_texture_data. rewrite Hlen, Hunpack. cbv zeta.
  rewrite Hfit. destruct payload as [|c payload].
  - simpl. now rewrite Nat.add_0_r.
  - replace (Z.of_nat (length (c :: payload)) =? 0)%Z with false
      by (symmetry; apply Z.eqb_neq; simpl; lia).
    simpl orb. cbv iota. rewrite Nat2Z.id, Hslice. reflexivity.
Qed.

Lemma read_string_field
    (decode_utf8 : bytes -> option string)
    (decode_utf8_ignore : bytes -> string) (pre payload post : bytes) :
  (Z.of_nat (length payload) < 4294967296)%Z ->
  _read_string decode_utf8 decode_utf8_ignore (pre ++ field payload ++ post)
    (length pre)
  = Ret (decode_lenient decode_utf8 decode_utf8_ignore payload,
         length pre + 4 + length payload).
Proof.
  intros Hsize.
  destruct (read_header_of_field pre payload post Hsize)
    as (Hlen & Hunpack & Hfit & Hslice).
  unfold _read_string. rewrite Hlen, Hunpack. cbv zeta.
  rewrite Hfit, Nat2Z.id, Hslice. reflexivity.
Qed.

(** X1: reading back a texture field.  A payload shorter than 2^32
    bytes, stored after its little-endian length anywhere in a buffer, is
    returned as it is, and the offset returned is the position right after
    it; an empty payload is a field of four zero bytes. *)
Theorem texture_field_round_trip (pre payload post : bytes) :
  (Z.of_nat (length payload) < 4294967296)%Z ->
  _read_texture_data (pre ++ field payload ++ post) (length pre)
  = Ret (payload, length pre + length (field payload)).
Proof.
  intros Hsize. rewrite read_texture_field by assumption.
  unfold field. rewrite length_app, length_pack_u32_le.
  do 2 f_equal. lia.
Qed.

Lemma texture_field_round_trip_witness :
  _read_texture_data two_fields 2 = Ret (b "head", 10).
Proof.
  apply (texture_field_round_trip [xff; x00] (b "head")
           (field (b "body") ++ [x01])).
  simpl. lia.
Defined.

(** X2: reading back a string field.  The bytes of a string shorter than
    2^32 bytes, stored after their little-endian length anywhere in a buffer,
    come back decoded: strictly when they are valid UTF-8, with the invalid
    bytes dropped otherwise.  The offset returned is the position right after
    the field; an empty string is a field of four zero bytes. *)
Theorem string_field_round_trip
    (decode_utf8 : bytes -> option string)
    (decode_utf8_ignore : bytes -> string) (pre payload post : bytes) :
  (Z.of_nat (length payload) < 4294967296)%Z ->
  _read_string decode_utf8 decode_utf8_ignore (pre ++ field payload ++ post)
    (length pre)
  = Ret (match decode_utf8 payload with
         | Some s => s
         | None => decode_utf8_ignore payload
         end,
         length pre + length (field payload)).
Proof.
  intros Hsize. rewrite read_string_field by assumption.
  unfold field, decode_lenient. rewrite length_app, length_pack_u32_le.
  do 2 f_equal. lia.
Qed.

Lemma string_field_round_trip_witness :
  _read_string ascii_decode ascii_decode_ignore two_fields 2
  = Ret ("head"%string, 10).
Proof.
  apply (string_field_round_trip ascii_decode ascii_decode_ignore
           [xff; x00] (b "head") (field (b "body") ++ [x01])).
  simpl. lia.
Defined.

(** X3: the offsets chain.  When a string field is followed by a texture
    field, reading the string and then reading the texture at the offset the
    first read returned gives the name and the texture bytes, and ends right
    after the second field. *)
Theorem string_then_texture
    (decode_utf8 : bytes -> option string)
    (decode_utf8_ignore : bytes -> string)
    (pre name payload post : bytes) :
  (Z.of_nat (length name) < 4294967296)%Z ->
  (Z.of_nat (length payload) < 4294967296)%Z ->
  exists offset,
    _read_string decode_utf8 decode_utf8_ignore
      (pre ++ field name ++ field payload ++ post) (length pre)
    = Ret (decode_lenient decode_utf8 decode_utf8_ignore name, offset)
    /\ _read_texture_data (pre ++ field name ++ field payload ++ post) offset
       = Ret (payload, length (pre ++ field name ++ field payload)).
Proof.
  intros Hname Hsize.
  exists (length pre + 4 + length name). split.
  - apply read_string_field. assumption.
  - replace (length pre + 4 + length name) with (length (pre ++ field name))
      by (unfold field; rewrite !length_app, length_pack_u32_le; lia).
    rewrite (app_assoc pre (field name)).
    rewrite read_texture_field by assumption.
    f_equal. f_equal. unfold field.
    rewrite !length_app, !length_pack_u32_le. lia.
Qed.

Lemma string_then_texture_witness :
  exists offset,
    _read_string ascii_decode ascii_decode_ignore two_fields 2
    = Ret ("head"%string, offset)
    /\ _read_texture_data two_fields offset = Ret (b "body", 18).
Proof.
  apply (string_then_texture ascii_decode ascii_decode_ignore
           [xff; x00] (b "head") (b "body") [x01]).
  - simpl. lia.
  - simpl. lia.
Defined.



(** ** The scans of the analysis *)

Lemma filter_none {A : Type} (f : A -> bool) (l : list A) :
  (forall x, In x l -> f x = false) -> filter f l = [].
Proof.
  induction l as [|x l IH]; intros H; simpl; [reflexivity|].
  rewrite (H x) by now left. apply IH. intros y Hy. apply H. now right.
Qed.

Lemma analyze_png_loop_spec (fuel : nat) (data : bytes) (s : nat) :
  s <= length data -> length data < fuel + s ->
  analyze_png_loop fuel data s
  = Some (filter (occurs_at png_signature data) (seq s (length data - s))).
Proof.
  revert s; induction fuel as [|fuel IH]; intros s Hs Hfuel; [lia|].
  simpl. destruct (find data png_signature s) as [p|] eqn:Hfind.
  - apply find_some in Hfind as (Hp & Hocc & Hmin).
    pose proof (occurs_at_bound _ _ _ png_signature_nonempty Hocc) as Hend.
    simpl in Hend.
    rewrite IH by lia. f_equal.
    assert (Hsplit : seq s (length data - s)
                     = seq s (p - s)
                       ++ p :: seq (p + 1) (length data - (p + 1))).
    { replace (length data - s) with ((p - s) + S (length data - (p + 1)))
        by lia.
      rewrite seq_app. replace (s + (p - s)) with p by lia.
      simpl. now replace (S p) with (p + 1) by lia. }
    rewrite Hsplit, filter_app.
    rewrite (filter_none _ (seq s (p - s))).
    + simpl. now rewrite Hocc.
    + intros q Hq. apply in_seq in Hq. apply Hmin. lia.
  - f_equal. symmetry. apply filter_none.
    intros q Hq. apply in_seq in Hq.
    apply (find_none _ _ _ png_signature_nonempty Hfind). lia.
Qed.

Lemma analyze_png_positions_filter (data : bytes) :
  analyze_png_positions data = signature_positions data.
Proof.
  unfold analyze_png_positions, signature_positions.
  rewrite analyze_png_loop_spec by lia.
  now rewrite Nat.sub_0_r.
Qed.

(** X6: the analysis lists every occurrence of the PNG signature: its
    loop ends, and [png_positions] holds exactly the positions at which the
    eight signature bytes occur in the buffer, each once and by ascending
    position. *)
Theorem analyze_lists_every_signature (data : bytes) :
  analyze_png_positions data
  = filter (occurs_at png_signature data) (seq 0 (length data))
  /\ (forall p,
        In p (analyze_png_positions data)
        <-> occurs_at png_signature data p = true)
  /\ StronglySorted lt (analyze_png_positions data).
Proof.
  rewrite analyze_png_positions_filter.
  split; [reflexivity|]. split; [apply in_signature_positions|].
  unfold signature_positions.
  generalize (occurs_at png_signature data).
  generalize 0 as a. generalize (length data) as n.
  induction n as [|n IH]; intros a f; simpl; [constructor|].
  destruct (f a).
  - constructor; [apply IH|]. apply Forall_forall.
    intros q Hq. apply filter_In in Hq as [Hq _]. apply in_seq in Hq. lia.
  - apply IH.
Qed.






(** X8: the candidates of the analysis against the model of a conversion.
    Every position at which the extractor accepts a JSON object is among the
    [json_positions] the analysis lists; when the analysis lists none, the
    extractor parses nothing and the model is the skeleton. *)
Theorem json_candidates_cover_extraction
    (json_loads : bytes -> loads_result) (data : bytes) (file_path : string) :
  (forall i d json_end,
     json_attempt json_loads data i = Hit d json_end ->
     In i (analyze_json_positions data))
  /\ (analyze_json_positions data = [] ->
      exists r,
        extract json_loads data file_path = Some r
        /\ md_model r = Some skeleton_model).
Proof.
  assert (Hhit : forall i d json_end,
            json_attempt json_loads data i = Hit d json_end ->
            In i (analyze_json_positions data)).
  { intros i d json_end H.
    pose proof (json_attempt_hit_bound json_loads data i json_end d H) as Hi.
    unfold analyze_json_positions. apply filter_In. split.
    - apply in_seq. lia.
    - unfold json_attempt in H.
      destruct (nth_error data i) as [c|]; [|discriminate].
      destruct (Byte.eqb c open_brace); [reflexivity | discriminate]. }
  split; [exact Hhit|].
  intros Hnone.
  assert (Hscan : scan_json json_loads data = Some []).
  { unfold scan_json. rewrite <- (app_nil_r (json_positions data)).
    rewrite json_loop_skip; [reflexivity|].
    intros i Hi.
    destruct (json_attempt json_loads data i) as [d e| |] eqn:Ha.
    - apply Hhit in Ha. rewrite Hnone in Ha. destruct Ha.
    - reflexivity.
    - exfalso. unfold json_attempt in Ha.
      unfold json_positions in Hi. apply in_seq in Hi.
      destruct (nth_error data i) as [c|] eqn:Hc; [|discriminate].
      destruct (Byte.eqb c open_brace) eqn:Hb; [|discriminate].
      assert (Hin : In i (analyze_json_positions data)).
      { unfold analyze_json_positions. apply filter_In. split.
        - apply in_seq. lia.
        - now rewrite Hc. }
      rewrite Hnone in Hin. destruct Hin. }
  unfold extract. rewrite Hscan. eexists. split; reflexivity.
Qed.

Section AnalyzeStringsFacts.

Variable decode_utf8 : bytes -> option string.
Variable decode_utf8_ignore : bytes -> string.
Variable isprintable : string -> bool.
Variable str_len_chars : string -> nat.




End AnalyzeStringsFacts.

Example analyze_strings_sample :
  analyze_strings ascii_decode ascii_isprintable String.length two_fields
  = [(2, "head"%string); (10, "body"%string)].
Proof. vm_compute. reflexivity. Qed.

(** ** Batch conversion *)

Section BatchFacts.

Variable json_loads : bytes -> loads_result.

(** A conversion only appends to the console and to the archives; its
    result does not depend on either, and it stores one archive, at its output
    path, exactly when it returns [True]. *)
Lemma convert_outcome (h : host) (input_path output_path : string) (w : world) :
  exists r msgs stored,
    convert_cpmmodel_to_cpmproject json_loads h input_path (Some output_path) w
    = (r, mkWorld (console w ++ msgs) (stored ++ archives w))
    /\ r = fst (convert_cpmmodel_to_cpmproject json_loads h input_path
                  (Some output_path) initial_world)
    /\ match r with
       | Ret true => map fst stored = [output_path]
       | _ => stored = []
       end.
Proof.
  destruct (path_exists h input_path) eqn:Hexists.
  2: { exists (Raise FileNotFoundError), [], [].
       rewrite !convert_input_missing by assumption.
       rewrite app_nil_r. destruct w; auto. }
  destruct (endswith (lower input_path) ".cpmmodel") eqn:Hext.
  2: { exists (Raise ValueError), [], [].
       rewrite !convert_wrong_extension by assumption.
       rewrite app_nil_r. destruct w; auto. }
  rewrite !convert_accepted by assumption. cbv zeta.
  destruct (negb (model_data_truthy (read_cpmmodel json_loads h input_path))).
  - eexists _, _, []. repeat split.
  - destruct (zip_write_error h _ _).
    + eexists _, _, []. repeat split.
    + eexists _, _, [_]. repeat split.
Qed.

Lemma batch_step_spec (h : host) (input_directory output_directory : string)
    (st : batch_state) (filename : string) :
  let ok := converts_alone json_loads h input_directory output_directory
              filename in
  let st' := batch_step json_loads h input_directory output_directory st
               filename in
  st_success st' = st_success st + (if ok then 1 else 0)
  /\ st_failed st' = st_failed st + (if ok then 0 else 1)
  /\ st_failed_files st'
     = st_failed_files st ++ (if ok then [] else [filename])
  /\ map fst (batch_archives (st_world st'))
     = (if ok then [batch_output_path output_directory filename] else [])
       ++ map fst (batch_archives (st_world st))
  /\ exists lines,
       batch_console (st_world st') = batch_console (st_world st) ++ lines.
Proof.
  cbv zeta. unfold batch_step, run_conversion, converts_alone.
  fold (batch_output_path output_directory filename).
  destruct (convert_outcome h (path_join input_directory filename)
              (batch_output_path output_directory filename)
              (mkWorld [] (batch_archives
                             (batch_print [BProcessing filename]
                                          (st_world st)))))
    as (r & msgs & stored & Hrun & Hr & Hstored).
  rewrite Hrun, <- Hr.
  destruct r as [[|]|e]; cbn [st_success st_failed st_failed_files st_world
                              batch_print batch_console batch_archives
                              console archives app];
    rewrite ?map_app; cbn [batch_print batch_archives];
    try rewrite Hstored; rewrite ?app_nil_r;
    repeat split; try lia; try reflexivity;
    rewrite <- ?app_assoc; eexists; reflexivity.
Qed.

Lemma batch_fold_spec (h : host) (input_directory output_directory : string)
    (files : list string) (st : batch_state) :
  let ok := converts_alone json_loads h input_directory output_directory in
  let st' :=
    fold_left (batch_step json_loads h input_directory output_directory)
              files st in
  st_success st' = st_success st + length (filter ok files)
  /\ st_failed st' = st_failed st + length (filter (fun f => negb (ok f)) files)
  /\ st_failed_files st'
     = st_failed_files st ++ filter (fun f => negb (ok f)) files
  /\ map fst (batch_archives (st_world st'))
     = rev (map (batch_output_path output_directory) (filter ok files))
       ++ map fst (batch_archives (st_world st))
  /\ exists lines,
       batch_console (st_world st') = batch_console (st_world st) ++ lines.
Proof.
  cbv zeta. revert st. induction files as [|f files IH]; intros st.
  - simpl. rewrite app_nil_r. repeat split; try lia. exists [].
    now rewrite app_nil_r.
  - simpl fold_left.
    destruct (batch_step_spec h input_directory output_directory st f)
      as (Hs & Hf & Hff & Ha & lines & Hc).
    destruct (IH (batch_step json_loads h input_directory output_directory
                    st f))
      as (Hs' & Hf' & Hff' & Ha' & lines' & Hc').
    rewrite Hs', Hf', Hff', Ha', Hc', Hs, Hf, Hff, Ha, Hc. simpl filter.
    destruct (converts_alone json_loads h input_directory output_directory f);
      simpl; rewrite <- ?app_assoc; repeat split; try lia; try reflexivity;
      eexists; reflexivity.
Qed.

End BatchFacts.

(** A batch on a directory that exists, can be listed, and whose output
    directory exists or can be made. *)
Lemma batch_convert_run
    (json_loads : bytes -> loads_result) (dh : directory_host)
    (input_directory : string) (output_directory : option string)
    (names : list string) (bw : batch_world) :
  let outdir := get_or output_directory input_directory in
  let files := filter has_cpmmodel_extension names in
  let ok := converts_alone json_loads (dh_files dh) input_directory outdir in
  let failing := filter (fun f => negb (ok f)) files in
  path_exists (dh_files dh) input_directory = true ->
  path_exists (dh_files dh) outdir = true
  \/ dh_makedirs_error dh outdir = None ->
  dh_listdir dh input_directory = Some names ->
  exists bw',
    batch_convert json_loads dh input_directory output_directory bw
    = (Ret (mkBatchResults (length (filter ok files)) (length failing)
                           (length files)),
       bw')
    /\ map fst (batch_archives bw')
       = rev (map (batch_output_path outdir) (filter ok files))
         ++ map fst (batch_archives bw)
    /\ match files with
       | [] => batch_console bw' = batch_console bw ++ [BNoFiles]
       | _ :: _ =>
           exists lines,
             batch_console bw'
             = batch_console bw
               ++ [BFound (length files); BDashes 50]
               ++ lines
               ++ batch_report (length files) (length (filter ok files))
                    (length failing) failing
       end.
Proof.
  cbv zeta. intros Hin Hout Hlist. unfold batch_convert.
  rewrite Hin, Hlist. cbn [negb]. cbv zeta.
  replace (if negb (path_exists (dh_files dh)
                      (get_or output_directory input_directory))
           then dh_makedirs_error dh (get_or output_directory input_directory)
           else None)
    with (@None exn)
    by (destruct Hout as [-> | ->]; [reflexivity|];
        destruct (negb _); reflexivity).
  destruct (filter has_cpmmodel_extension names) as [|f files] eqn:Hfiles.
  - simpl. eexists. repeat split.
  - cbn [length Nat.eqb].
    destruct (batch_fold_spec json_loads (dh_files dh) input_directory
                (get_or output_directory input_directory) (f :: files)
                (mkBatchState 0 0 []
                   (batch_print [BFound (S (length files)); BDashes 50] bw)))
      as (Hs & Hf & Hff & Ha & lines & Hc).
    cbn [st_success st_failed st_failed_files st_world] in Hs, Hf, Hff, Ha, Hc.
    rewrite Nat.add_0_l in Hs, Hf. rewrite app_nil_l in Hff.
    set (st' := fold_left _ _ _) in *.
    rewrite Hs, Hf, Hff.
    eexists. split; [reflexivity|]. split.
    + cbn [batch_print batch_archives] in *. exact Ha.
    + exists lines. cbn [batch_print batch_console] in *. rewrite Hc.
      unfold batch_report. now rewrite <- !app_assoc.
Qed.

Lemma filter_partition_length {A : Type} (f : A -> bool) (l : list A) :
  length (filter f l) + length (filter (fun x => negb (f x)) l) = length l.
Proof.
  induction l as [|x l IH]; simpl; [reflexivity|].
  destruct (f x); simpl; lia.
Qed.

(** X10: the counts of a batch.  On a directory that exists and can be
    listed, the batch returns normally whatever happens to single files:
    [total] is the number of listed names with the [.cpmmodel] extension in
    any letter case, [success] is the number of those whose conversion
    succeeds when run alone, every other one counts as [failed], whether its
    conversion returned [False] or raised, and [success + failed = total]. *)
Theorem batch_counts_every_file
    (json_loads : bytes -> loads_result) (dh : directory_host)
    (input_directory : string) (output_directory : option string)
    (names : list string) (bw : batch_world) :
  let outdir := get_or output_directory input_directory in
  let files := filter has_cpmmodel_extension names in
  let ok := converts_alone json_loads (dh_files dh) input_directory outdir in
  path_exists (dh_files dh) input_directory = true ->
  path_exists (dh_files dh) outdir = true
  \/ dh_makedirs_error dh outdir = None ->
  dh_listdir dh input_directory = Some names ->
  exists results,
    fst (batch_convert json_loads dh input_directory output_directory bw)
    = Ret results
    /\ res_total results = length files
    /\ res_success results = length (filter ok files)
    /\ res_failed results = length (filter (fun f => negb (ok f)) files)
    /\ res_success results + res_failed results = res_total results.
Proof.
  cbv zeta. intros Hin Hout Hlist.
  destruct (batch_convert_run json_loads dh input_directory output_directory
              names bw Hin Hout Hlist) as (bw' & Hrun & _).
  rewrite Hrun. eexists. split; [reflexivity|].
  cbn [res_total res_success res_failed]. repeat split.
  apply filter_partition_length.
Qed.

Lemma batch_counts_every_file_witness :
  fst (batch_convert RefJson.loads sample_directory_host "models" (Some "out"%string)
         (mkBatchWorld [] []))
  = Ret (mkBatchResults 2 2 4).
Proof.
  destruct (batch_counts_every_file RefJson.loads sample_directory_host
              "models" (Some "out"%string)
              [ "a.cpmmodel"; "notes.txt"; "B.CPMMODEL";
                "ghost.cpmmodel"; "locked.cpmmodel" ]%string
              (mkBatchWorld [] []))
    as (results & Hrun & Htotal & Hsuccess & Hfailed & _);
    [reflexivity | right; reflexivity | reflexivity |].
  rewrite Hrun. destruct results as [s f t].
  cbn [res_total res_success res_failed] in Htotal, Hsuccess, Hfailed.
  rewrite Htotal, Hsuccess, Hfailed. reflexivity.
Defined.



(** X12: a batch raises only before it starts.  When [batch_convert]
    raises, nothing was printed or written, and the reason is one of three:
    the input directory does not exist ([FileNotFoundError]), the missing
    output directory cannot be made, or the input directory cannot be
    listed. *)
Theorem batch_raises_before_anything
    (json_loads : bytes -> loads_result) (dh : directory_host)
    (input_directory : string) (output_directory : option string)
    (bw bw' : batch_world) (e : exn) :
  batch_convert json_loads dh input_directory output_directory bw
  = (Raise e, bw') ->
  bw' = bw
  /\ ((path_exists (dh_files dh) input_directory = false
       /\ e = FileNotFoundError)
      \/ (path_exists (dh_files dh) input_directory = true
          /\ path_exists (dh_files dh)
               (get_or output_directory input_directory) = false
          /\ dh_makedirs_error dh (get_or output_directory input_directory)
             = Some e)
      \/ (path_exists (dh_files dh) input_directory = true
          /\ dh_listdir dh input_directory = None
          /\ e = OSError)).
Proof.
  unfold batch_convert.
  destruct (path_exists (dh_files dh) input_directory) eqn:Hin; cbn [negb].
  2: { intros [= <- <-]. intuition auto. }
  cbv zeta.
  destruct (path_exists (dh_files dh)
              (get_or output_directory input_directory)) eqn:Hout;
    cbn [negb].
  - destruct (dh_listdir dh input_directory) as [names|] eqn:Hlist.
    + destruct (length (filter has_cpmmodel_extension names) =? 0);
        discriminate.
    + intros [= <- <-]. intuition auto.
  - destruct (dh_makedirs_error dh _) as [e'|] eqn:Hmk.
    + intros [= <- <-]. intuition auto.
    + destruct (dh_listdir dh input_directory) as [names|] eqn:Hlist.
      * destruct (length (filter has_cpmmodel_extension names) =? 0);
          discriminate.
      * intros [= <- <-]. intuition auto.
Qed.

Lemma batch_raises_before_anything_witness :
  batch_convert RefJson.loads sample_directory_host "nowhere" None
    (mkBatchWorld [BNoFiles] [])
  = (Raise FileNotFoundError, mkBatchWorld [BNoFiles] [])
  /\ path_exists (dh_files sample_directory_host) "nowhere" = false.
Proof.
  split; [reflexivity|].
  destruct (batch_raises_before_anything RefJson.loads sample_directory_host
              "nowhere" None (mkBatchWorld [BNoFiles] [])
              (mkBatchWorld [BNoFiles] []) FileNotFoundError eq_refl)
    as [_ [[H _] | [(H & _) | (H & _)]]];
    [exact H | discriminate H | discriminate H].
Defined.

(** X13: the report of a batch.  With no matching file the batch prints
    one line and nothing else.  Otherwise its output ends with the report: the
    three counts, and after them the names of exactly the files that failed,
    in the order of the listing; the list and its header are left out when no
    file failed. *)
Theorem batch_report_names_failures
    (json_loads : bytes -> loads_result) (dh : directory_host)
    (input_directory : string) (output_directory : option string)
    (names : list string) (bw : batch_world) :
  let outdir := get_or output_directory input_directory in
  let files := filter has_cpmmodel_extension names in
  let ok := converts_alone json_loads (dh_files dh) input_directory outdir in
  let failing := filter (fun f => negb (ok f)) files in
  let printed :=
    batch_console
      (snd (batch_convert json_loads dh input_directory output_directory bw)) in
  path_exists (dh_files dh) input_directory = true ->
  path_exists (dh_files dh) outdir = true
  \/ dh_makedirs_error dh outdir = None ->
  dh_listdir dh input_directory = Some names ->
  (files = [] -> printed = batch_console bw ++ [BNoFiles])
  /\ (files <> [] ->
      exists lines,
        printed
        = batch_console bw
          ++ [BFound (length files); BDashes 50]
          ++ lines
          ++ [BReportOpen; BReportTitle; BReportClose;
              BTotal (length files);
              BSuccess (length files - length failing);
              BFailed (length failing)]
          ++ match failing with
             | [] => []
             | _ :: _ => BFailedHeader :: map BFailedFile failing
             end).
Proof.
  cbv zeta. intros Hin Hout Hlist.
  destruct (batch_convert_run json_loads dh input_directory output_directory
              names bw Hin Hout Hlist) as (bw' & Hrun & _ & Hconsole).
  rewrite Hrun. cbn [snd].
  pose proof (filter_partition_length
                (converts_alone json_loads (dh_files dh) input_directory
                   (get_or output_directory input_directory))
                (filter has_cpmmodel_extension names)) as Hpart.
  destruct (filter has_cpmmodel_extension names) as [|f files] eqn:Hfiles.
  - split; [intros _; exact Hconsole | congruence].
  - split; [discriminate|]. intros _.
    destruct Hconsole as [lines Hlines]. exists lines.
    rewrite Hlines. unfold batch_report.
    replace (length (f :: files)
             - length (filter (fun f0 => negb (converts_alone json_loads
                         (dh_files dh) input_directory
                         (get_or output_directory input_directory) f0))
                        (f :: files)))
      with (length (filter (converts_alone json_loads (dh_files dh)
                              input_directory
                              (get_or output_directory input_directory))
                           (f :: files)))
      by lia.
    reflexivity.
Qed.

Lemma batch_report_names_failures_witness :
  exists lines,
    batch_console
      (snd (batch_convert RefJson.loads sample_directory_host "models"
              (Some "out"%string) (mkBatchWorld [] [])))
    = [BFound 4; BDashes 50]
      ++ lines
      ++ [BReportOpen; BReportTitle; BReportClose;
          BTotal 4; BSuccess 2; BFailed 2;
          BFailedHeader;
          BFailedFile "ghost.cpmmodel"; BFailedFile "locked.cpmmodel"].
Proof.
  destruct (batch_report_names_failures RefJson.loads sample_directory_host
              "models" (Some "out"%string)
              [ "a.cpmmodel"; "notes.txt"; "B.CPMMODEL";
                "ghost.cpmmodel"; "locked.cpmmodel" ]%string
              (mkBatchWorld [] []))
    as [_ Hreport];
    [reflexivity | right; reflexivity | reflexivity |].
  destruct Hreport as [lines Hlines]; [discriminate|].
  exists lines. exact Hlines.
Defined.

(** ** File names *)

Lemma string_app_assoc (a c d : string) :
  ((a ++ c) ++ d = a ++ (c ++ d))%string.
Proof.
  induction a as [|x a IH]; simpl; [reflexivity | now rewrite IH].
Qed.

Lemma string_length_app (a c : string) :
  String.length (a ++ c) = String.length a + String.length c.
Proof.
  induction a as [|x a IH]; simpl; [reflexivity | now rewrite IH].
Qed.

Lemma string_app_inv_tail (a c t : string) :
  (a ++ t = c ++ t)%string -> a = c.
Proof.
  revert c; induction a as [|x a IH]; intros [|y c] H; simpl in H.
  - reflexivity.
  - apply (f_equal String.length) in H. simpl in H.
    rewrite string_length_app in H. lia.
  - apply (f_equal String.length) in H. simpl in H.
    rewrite string_length_app in H. lia.
  - injection H as -> H. f_equal. now apply IH.
Qed.

Lemma before_last_dot_no_dot (s : string) :
  has_dot s = false -> before_last_dot s = None.
Proof.
  induction s as [|c s IH]; simpl; [reflexivity|].
  intros H. apply orb_false_elim in H as [Hc Hs].
  now rewrite IH, Hc.
Qed.

(** A name is cut at its last dot. *)
Lemma before_last_dot_app (stem ext : string) :
  has_dot ext = false ->
  before_last_dot (stem ++ "." ++ ext) = Some stem.
Proof.
  intros Hext. induction stem as [|c stem IH]; simpl.
  - now rewrite before_last_dot_no_dot.
  - simpl in IH. now rewrite IH.
Qed.

Lemma has_slash_app (a c : string) :
  has_slash (a ++ c) = has_slash a || has_slash c.
Proof.
  induction a as [|x a IH]; simpl; [reflexivity|].
  now rewrite IH, orb_assoc.
Qed.

Lemma basename_app (dir file : string) :
  has_slash file = false -> basename (dir ++ "/" ++ file) = file.
Proof.
  intros Hfile. induction dir as [|c dir IH]; simpl.
  - now rewrite Hfile.
  - simpl in IH. rewrite has_slash_app. simpl.
    rewrite orb_true_r. exact IH.
Qed.

(** X14: where a conversion writes when no output path is given.  For an
    input path [stem.ext], whatever the directories and dots in [stem] and
    whatever the letter case of the extension, the archive is written to
    [stem.cpmproject]: beside the input, with only the extension replaced. *)
Theorem output_path_replaces_extension (stem ext : string) :
  has_dot ext = false ->
  resolve_output_path (stem ++ "." ++ ext) None
  = (stem ++ ".cpmproject")%string.
Proof.
  intros Hext. unfold resolve_output_path, rsplit_dot_head.
  now rewrite before_last_dot_app.
Qed.

Lemma output_path_replaces_extension_witness :
  resolve_output_path "models/v1.2/Knight.CPMMODEL" None
  = "models/v1.2/Knight.cpmproject"%string.
Proof.
  apply (output_path_replaces_extension "models/v1.2/Knight" "CPMMODEL").
  reflexivity.
Defined.

(** X15: the metadata and [project.json] come from the file name alone.
    For a file [dir/stem.ext] whose [stem] has a character other than a dot,
    the extraction records the file name [stem.ext], the model name [stem] and
    the size of the buffer, and the first entry of the archive is
    [project.json] with that model name as [name] and the file name in its
    description, whatever the content of the file. *)
Theorem project_named_after_file
    (json_loads : bytes -> loads_result) (data : bytes)
    (dir stem ext : string) (r : model_data) :
  has_slash (stem ++ "." ++ ext) = false ->
  has_dot ext = false ->
  all_dots stem = false ->
  extract json_loads data (dir ++ "/" ++ stem ++ "." ++ ext) = Some r ->
  md_metadata r
  = Some (mkMetadata (Some (stem ++ "." ++ ext)%string) (Some stem)
                     (Some (length data)))
  /\ nth_error (archive_entries r) 0
     = Some ("project.json"%string,
             JsonText
               (JDict
                  [ ("version"%string, JStr "0.6.0");
                    ("name"%string, JStr stem);
                    ("description"%string,
                       JStr ("Converted from " ++ stem ++ "." ++ ext)%string);
                    ("author"%string, JStr "CPM Converter");
                    ("exportVersion"%string, JStr "1.0.0") ])).
Proof.
  intros Hslash Hext Hstem.
  pose proof (basename_app dir _ Hslash) as Hbase.
  assert (Hroot : splitext_root (stem ++ "." ++ ext) = stem).
  { unfold splitext_root. now rewrite before_last_dot_app, Hstem. }
  set (path := (dir ++ "/" ++ stem ++ "." ++ ext)%string) in *.
  unfold extract.
  destruct (scan_json json_loads data) as [model_json|]; [|discriminate].
  intros [= <-].
  rewrite Hbase, Hroot. split; [reflexivity|].
  unfold archive_entries. cbn [md_textures get_or].
  destruct (write_textures (scan_textures data) 0 0). reflexivity.
Qed.

Lemma project_named_after_file_witness :
  exists r,
    extract RefJson.loads two_images "models/knight.cpmmodel" = Some r
    /\ md_metadata r
       = Some (mkMetadata (Some "knight.cpmmodel"%string)
                          (Some "knight"%string) (Some 132)).
Proof.
  eexists. split; [reflexivity|].
  apply (project_named_after_file RefJson.loads two_images
           "models" "knight" "cpmmodel"); reflexivity.
Defined.

(** ** More on the Extractor and the Packager *)

(** Every recorded texture has data and a synthesized name; the names
    count up from zero. *)
Lemma scan_textures_named (data : bytes) :
  map tex_name (scan_textures data)
  = map (fun k => Some (texture_name k))
        (seq 0 (length (scan_textures data)))
  /\ Forall (fun t => has_data t = true) (scan_textures data).
Proof.
  split.
  - destruct (scan_textures_spec data) as (images & -> & _).
    rewrite length_textures_of. generalize 0 as k.
    induction images as [|img images IH]; intros k; simpl; [reflexivity|].
    f_equal. rewrite IH. now replace (k + 1) with (S k) by lia.
  - apply Forall_forall. intros t Hin.
    rewrite <- scan_textures_have_data in Hin.
    now apply filter_In in Hin.
Qed.

(** X16: what [read_cpmmodel] can return.  The result is the empty dict
    or a complete one, never a partial one: with the textures of the buffer,
    each with a non-empty data and the name [texture_k.png] of its rank; with
    a model that is never empty (the parsed object, or the skeleton); with
    empty animations; and with the size of the buffer in the metadata.  It is
    empty exactly when the file cannot be read or the parser fails with an
    exception other than a decoding error. *)
Theorem read_cpmmodel_complete_or_empty
    (json_loads : bytes -> loads_result) (h : host) (file_path : string) :
  let r := read_cpmmodel json_loads h file_path in
  (r = empty_model_data
   /\ (file_content h file_path = None
       \/ exists data,
            file_content h file_path = Some data
            /\ scan_json json_loads data = None))
  \/ (exists data model meta,
        file_content h file_path = Some data
        /\ r = mkModelData (Some (scan_textures data)) (Some model) (Some [])
                 (Some meta)
        /\ model <> []
        /\ meta_file_size meta = Some (length data)
        /\ map tex_name (scan_textures data)
           = map (fun k => Some (texture_name k))
                 (seq 0 (length (scan_textures data)))
        /\ Forall (fun t => has_data t = true) (scan_textures data)).
Proof.
  cbv zeta. unfold read_cpmmodel.
  destruct (file_content h file_path) as [data|]; [|left; auto].
  unfold extract.
  destruct (scan_json json_loads data) as [model_json|] eqn:Hscan.
  - right. destruct (scan_textures_named data) as [Hnames Hdata].
    eexists data, _, _. split; [reflexivity|]. split; [reflexivity|].
    repeat split; auto.
    destruct model_json; simpl; discriminate.
  - left. split; [reflexivity|]. right. now exists data.
Qed.

Lemma prefix_textures (name : string) :
  String.prefix "textures/"
    (if negb (String.prefix "textures/" name)
     then ("textures/" ++ name)%string else name)
  = true.
Proof.
  destruct (String.prefix "textures/" name) eqn:H; simpl.
  - exact H.
  - destruct name; reflexivity.
Qed.

Lemma write_textures_entries (l : list texture) (i n : nat) :
  Forall (fun e => String.prefix "textures/" (fst e) = true
                   /\ exists c data, snd e = RawBytes (c :: data))
         (fst (write_textures l i n)).
Proof.
  revert i n; induction l as [|t l IH]; intros i n; [constructor|].
  destruct t as [name [[|c data]|]];
    cbn [write_textures tex_data tex_name get_or]; try apply IH.
  specialize (IH (i + 1) (n + 1)).
  destruct (write_textures l (i + 1) (n + 1)) as [entries k].
  cbn [fst] in *. constructor; [|assumption].
  cbn [fst snd]. split; [apply prefix_textures | eauto].
Qed.

(** X17: the layout of every archive.  Whatever the model data, the
    Packager writes [project.json], then [model.json], then one entry with
    non-empty content under [textures/] for each texture that has data (a name
    that already starts with [textures/] is kept, any other is prefixed), then
    the empty [textures/.keep] exactly when no texture was written, and last
    the empty [animations/.keep]. *)
Theorem archive_layout (m : model_data) :
  exists texture_entries,
    archive_entries m
    = [ ("project.json"%string, JsonText (project_info m));
        ("model.json"%string, JsonText (JDict (model_document m))) ]
      ++ texture_entries
      ++ (match texture_entries with
          | [] => [ ("textures/.keep"%string, RawBytes []) ]
          | _ :: _ => []
          end)
      ++ [ ("animations/.keep"%string, RawBytes []) ]
    /\ length texture_entries
       = length (filter has_data (get_or (md_textures m) []))
    /\ Forall (fun e => String.prefix "textures/" (fst e) = true
                        /\ exists c data, snd e = RawBytes (c :: data))
              texture_entries.
Proof.
  unfold archive_entries.
  pose proof (write_textures_count (get_or (md_textures m) []) 0 0)
    as [Hn Hlen].
  pose proof (write_textures_entries (get_or (md_textures m) []) 0 0) as Hall.
  destruct (write_textures (get_or (md_textures m) []) 0 0) as [entries n].
  cbn [fst snd] in *. exists entries. repeat split; auto.
  subst n. destruct entries; reflexivity.
Qed.

Lemma str_of_nat_injective (m n : nat) : str_of_nat m = str_of_nat n -> m = n.
Proof.
  unfold str_of_nat. intros H.
  apply (f_equal NilEmpty.uint_of_string) in H.
  rewrite !NilEmpty.usu in H. injection H as H.
  apply (f_equal Nat.of_uint) in H.
  now rewrite !DecimalNat.Unsigned.of_to in H.
Qed.

Lemma texture_name_injective (m n : nat) :
  texture_name m = texture_name n -> m = n.
Proof.
  unfold texture_name. intros H. simpl in H.
  injection H as H. apply string_app_inv_tail in H.
  now apply str_of_nat_injective.
Qed.

Lemma string_app_inv_head (h a c : string) :
  (h ++ a = h ++ c)%string -> a = c.
Proof.
  induction h as [|x h IH]; simpl; [auto|].
  intros H. injection H as H. auto.
Qed.

Lemma NoDup_map_injective {A B : Type} (f : A -> B) (l : list A) :
  (forall x y, f x = f y -> x = y) -> NoDup l -> NoDup (map f l).
Proof.
  intros Hinj. induction 1 as [|x l Hx Hl IH]; simpl; constructor; auto.
  intros Hin. apply in_map_iff in Hin as (y & Hy & Hin).
  apply Hinj in Hy. now subst y.
Qed.

Lemma write_textures_named (l : list texture) (i n : nat) (names : list nat) :
  map tex_name l = map (fun k => Some (texture_name k)) names ->
  Forall (fun t => has_data t = true) l ->
  map fst (fst (write_textures l i n))
  = map (fun k => ("textures/" ++ texture_name k)%string) names.
Proof.
  revert i n names; induction l as [|t l IH]; intros i n [|k names] Hnames Hdata;
    try discriminate; [reflexivity|].
  apply Forall_cons_iff in Hdata as [Ht Hdata].
  simpl in Hnames. injection Hnames as Hname Hnames.
  destruct t as [name [[|c data]|]]; try discriminate.
  cbn [tex_name] in Hname. subst name.
  cbn [write_textures tex_data tex_name get_or].
  specialize (IH (i + 1) (n + 1) names Hnames Hdata).
  destruct (write_textures l (i + 1) (n + 1)) as [entries j].
  cbn [fst map] in *. now rewrite IH.
Qed.

(** X18: the entry names of a conversion.  The archive made from an
    extraction result holds [project.json], [model.json], the textures as
    [textures/texture_0.png], [textures/texture_1.png], ... in the order of
    extraction, [textures/.keep] when there is no texture, and
    [animations/.keep]; no two entries have the same name. *)
Theorem conversion_entry_names
    (json_loads : bytes -> loads_result) (data : bytes) (file_path : string)
    (r : model_data) :
  extract json_loads data file_path = Some r ->
  let n := length (scan_textures data) in
  map fst (archive_entries r)
  = [ "project.json"%string; "model.json"%string ]
    ++ map (fun k => ("textures/" ++ texture_name k)%string) (seq 0 n)
    ++ (if n =? 0 then [ "textures/.keep"%string ] else [])
    ++ [ "animations/.keep"%string ]
  /\ NoDup (map fst (archive_entries r)).
Proof.
  intros Hextract. cbv zeta.
  destruct (extract_truthy json_loads file_path data r Hextract) as [_ Htex].
  destruct (scan_textures_named data) as [Hnames Hdata].
  assert (Hentries :
    map fst (archive_entries r)
    = [ "project.json"%string; "model.json"%string ]
      ++ map (fun k => ("textures/" ++ texture_name k)%string)
             (seq 0 (length (scan_textures data)))
      ++ (if length (scan_textures data) =? 0
          then [ "textures/.keep"%string ] else [])
      ++ [ "animations/.keep"%string ]).
  { unfold archive_entries. rewrite Htex. cbn [get_or].
    pose proof (write_textures_named (scan_textures data) 0 0 _ Hnames Hdata)
      as Hfst.
    pose proof (write_textures_count (scan_textures data) 0 0) as [Hn Hlen].
    rewrite scan_textures_have_data in Hlen.
    destruct (write_textures (scan_textures data) 0 0) as [entries k].
    cbn [fst snd] in *. subst k. rewrite Hlen.
    unfold entry in *. rewrite !map_app, Hfst. simpl.
    destruct (length (scan_textures data) =? 0); reflexivity. }
  split; [exact Hentries|].
  rewrite Hentries.
  set (n := length (scan_textures data)).
  assert (Htextures : NoDup (map (fun k => ("textures/" ++ texture_name k)%string)
                                 (seq 0 n))).
  { apply NoDup_map_injective; [|apply seq_NoDup].
    intros x y H. apply string_app_inv_head in H.
    now apply texture_name_injective. }
  assert (Hother : forall s k,
            In s [ "project.json"; "model.json"; "textures/.keep";
                   "animations/.keep" ]%string ->
            s <> ("textures/" ++ texture_name k)%string).
  { intros s k Hs Heq. subst s. unfold texture_name in Hs. simpl in Hs.
    destruct Hs as [H | [H | [H | [H | []]]]]; discriminate. }
  simpl. constructor.
  { intros [H | H]; [discriminate|].
    apply in_app_iff in H as [H | H].
    - apply in_map_iff in H as (k & Hk & _).
      apply (Hother "project.json"%string k); simpl; auto.
    - destruct (n =? 0); simpl in H; intuition discriminate. }
  constructor.
  { intros H. apply in_app_iff in H as [H | H].
    - apply in_map_iff in H as (k & Hk & _).
      apply (Hother "model.json"%string k); simpl; auto.
    - destruct (n =? 0); simpl in H; intuition discriminate. }
  apply NoDup_app; [exact Htextures | |].
  - destruct (n =? 0); simpl; repeat constructor; simpl;
      intuition discriminate.
  - intros s H Hs. apply in_map_iff in H as (k & Hk & _).
    apply (Hother s k); [|now symmetry].
    destruct (n =? 0); simpl in Hs; simpl; intuition.
Qed.

Lemma conversion_entry_names_witness :
  exists r,
    extract RefJson.loads two_images "m.cpmmodel" = Some r
    /\ map fst (archive_entries r)
       = [ "project.json"; "model.json"; "textures/texture_0.png";
           "textures/texture_1.png"; "animations/.keep" ]%string.
Proof.
  eexists. split; [reflexivity|].
  apply (conversion_entry_names RefJson.loads two_images "m.cpmmodel").
  reflexivity.
Defined.

